(** * order.py: interactive reordering and renaming of files

    A shallow embedding of [order.py] and the properties of its line
    editor ([prompt_user]), its session loop ([main]) and the final
    enumeration done by the entry point.

    Conventions of the model:
    - Python integers are [Z]; list lengths and loop counters are [nat].
    - Python strings are [string]; a character is an [ascii], read as a
      code point below 256.
    - A Python exception is a value of [exn]; a computation that may raise
      returns a [result].
    - The terminal is not modelled: [draw_menu] and the [curses] calls are
      left out, and with them the [curses.error] they raise when a line
      does not fit the window; so are signals ([KeyboardInterrupt]).  A key
      is the integer returned by [getch], and the exceptions of the model
      are those of the program's own list, pattern and filesystem
      operations.
    - The filesystem and the regular-expression engine are interfaces
      ([FileSystem], [Regex]); small instances of both are given at the end
      of the definitions, for running the model on concrete inputs. *)

From Stdlib Require Import ZArith String Ascii DecimalString DecimalNat Lia.
From stdpp Require Import base list.

Local Open Scope string_scope.
Local Open Scope Z_scope.

(** ** Exceptions

    The exceptions the program can meet.  [Unmodelled] is not one of them:
    it marks the inputs on which a library function does something the
    model does not describe. *)

Inductive exn : Type :=
| IndexError
| TypeError
| ValueError
| OSError (reason : string)
| ReError
| Unmodelled.

Inductive result (A : Type) : Type :=
| Ok (a : A)
| Raise (e : exn).
Arguments Ok {A} a.
Arguments Raise {A} e.

#[global] Instance result_ret : MRet result := @Ok.
#[global] Instance result_bind : MBind result := fun A B f m =>
  match m with
  | Ok a => f a
  | Raise e => Raise e
  end.

(** [str(e)] for the exceptions that reach an f-string. *)
Definition exn_str (e : exn) : string :=
  match e with
  | IndexError => "list assignment index out of range"
  | OSError reason => reason
  | _ => ""
  end.

(** ** Python lists *)

Module PyList.
Section Ops.
Context {A : Type}.

(** Position denoted by index [i] in [l]: negative indices count from the
    end, anything outside [-len, len) is an [IndexError]. *)
Definition index (l : list A) (i : Z) : result nat :=
  let n := Z.of_nat (length l) in
  if decide (0 <= i < n) then Ok (Z.to_nat i)
  else if decide (- n <= i < 0) then Ok (Z.to_nat (i + n))
  else Raise IndexError.

(** [l[i]] *)
Definition getitem (l : list A) (i : Z) : result A :=
  k ← index l i;
  match l !! k with
  | Some x => Ok x
  | None => Raise IndexError
  end.

(** [l[i] = v] *)
Definition setitem (l : list A) (i : Z) (v : A) : result (list A) :=
  k ← index l i; Ok (<[k:=v]> l).

(** [l.pop(i)]: the removed element and the list left. *)
Definition pop (l : list A) (i : Z) : result (A * list A) :=
  k ← index l i;
  match l !! k with
  | Some x => Ok (x, delete k l)
  | None => Raise IndexError
  end.

(** [l.insert(i, v)]: never raises, the index is clamped. *)
Definition insert (l : list A) (i : Z) (v : A) : list A :=
  let n := Z.of_nat (length l) in
  let k := Z.to_nat (if decide (i < 0) then Z.max 0 (i + n) else Z.min i n) in
  take k l ++ v :: drop k l.
End Ops.
End PyList.

(** ** Strings *)

Definition len {A} (l : list A) : Z := Z.of_nat (length l).

(** [str.isspace] on code points below 256. *)
Definition isspace (c : ascii) : bool :=
  let n := nat_of_ascii c in
  bool_decide (n ∈ [9; 10; 11; 12; 13; 28; 29; 30; 31; 32; 133; 160]%nat).

Fixpoint lstrip (l : list ascii) : list ascii :=
  match l with
  | c :: r => if isspace c then lstrip r else l
  | [] => []
  end.

(** [s.strip()] *)
Definition strip (l : list ascii) : list ascii :=
  rev (lstrip (rev (lstrip l))).

(** [str(n)] for a non-negative integer. *)
Definition str (n : nat) : string := NilZero.string_of_uint (Nat.to_uint n).

(** ** Keys *)

Definition KEY_DOWN : Z := 258.
Definition KEY_UP : Z := 259.
Definition KEY_LEFT : Z := 260.
Definition KEY_RIGHT : Z := 261.
Definition KEY_BACKSPACE : Z := 263.
Definition KEY_ENTER : Z := 343.

(** [ord(c)] *)
Definition ord (c : ascii) : Z := Z.of_nat (nat_of_ascii c).
Arguments ord c%_char.
(** [chr(k)] *)
Definition chr (k : Z) : ascii := ascii_of_nat (Z.to_nat k).

(** [key in (k1, k2, ...)] *)
Definition key_in (key : Z) (ks : list Z) : bool := existsb (Z.eqb key) ks.

(** ** The line editor: [prompt_user] *)

Record EditBuffer : Type := mkEdit {
  buffer : list ascii;
  cursor_pos : Z
}.

(** What one turn of the loop of [prompt_user] does. *)
Inductive PromptStep : Type :=
| Editing (e : EditBuffer)          (* the loop goes on *)
| Returned (value : option string)  (* [return value] / [return None] *)
| Faulted (x : exn).                (* an exception leaves the function *)

(** [buffer = list(default_value); cursor_pos = len(buffer)] *)
Definition prompt_start (default_value : string) : EditBuffer :=
  let b := list_ascii_of_string default_value in
  mkEdit b (len b).

(** The body of the [while True] loop, for the key read by [getch]. *)
Definition prompt_key (key : Z) (e : EditBuffer) : PromptStep :=
  let b := buffer e in
  let p := cursor_pos e in
  if key_in key [KEY_ENTER; 10; 13] then
    match strip b with
    | [] => Returned None
    | value => Returned (Some (string_of_list_ascii value))
    end
  else if key =? 1 then Editing (mkEdit b 0)
  else if key =? 4 then
    if 0 <? len b then
      match PyList.pop b p with
      | Ok (_, b') => Editing (mkEdit b' p)
      | Raise x => Faulted x
      end
    else Editing e
  else if key =? 5 then Editing (mkEdit b (len b - 1))
  else if key_in key [27; 3; 7] then Returned None
  else if key_in key [KEY_BACKSPACE; 127; 8] then
    if 0 <? p then
      match PyList.pop b (p - 1) with
      | Ok (_, b') => Editing (mkEdit b' (p - 1))
      | Raise x => Faulted x
      end
    else Editing e
  else if key_in key [2; KEY_LEFT] then
    if 0 <? p then Editing (mkEdit b (p - 1)) else Editing e
  else if key_in key [6; KEY_RIGHT] then
    if p <? len b then Editing (mkEdit b (p + 1)) else Editing e
  else if (32 <=? key) && (key <=? 126) then
    Editing (mkEdit (PyList.insert b p (chr key)) (p + 1))
  else Editing e.

(** ** [pattern % n]

    The fragment of the [%] operator the program can reach with an integer
    argument: plain text, the escape [%%], and one conversion
    [%d] with optional [0] flags and an optional width.  Other flags and
    conversion types are [Unmodelled]. *)

Definition isdigit (c : ascii) : bool :=
  let n := nat_of_ascii c in (48 <=? n)%nat && (n <=? 57)%nat.

Definition digit (c : ascii) : nat := (nat_of_ascii c - 48)%nat.

Fixpoint skip_zero_flags (s : string) : string :=
  match s with
  | String "0" r => skip_zero_flags r
  | _ => s
  end.

Fixpoint read_width (s : string) (acc : nat) : nat * string :=
  match s with
  | String c r =>
      if isdigit c then read_width r (10 * acc + digit c)%nat else (acc, s)
  | EmptyString => (acc, s)
  end.

(** Left padding of [s] with [c] up to [width] characters. *)
Definition pad (c : ascii) (width : nat) (s : string) : string :=
  string_of_list_ascii (replicate (width - String.length s) c) ++ s.

(** The conversion that starts after a [%]: the field it produces for [n]
    and the pattern text left after it. *)
Definition convert (spec : string) (n : nat) : result (string * string) :=
  let zero := match spec with String "0" _ => true | _ => false end in
  let '(width, rest) := read_width (skip_zero_flags spec) 0 in
  match rest with
  | EmptyString => Raise ValueError
  | String "d" rest' => Ok (pad (if zero then "0" else " ")%char width (str n), rest')
  | _ => Raise Unmodelled
  end.

(** The text after the conversion that used the argument. *)
Fixpoint literal (s : string) : result string :=
  match s with
  | EmptyString => Ok ""
  | String "%" (String "%" r) => o ← literal r; Ok (String "%" o)
  | String "%" EmptyString => Raise ValueError
  | String "%" _ => Raise Unmodelled
  | String c r => o ← literal r; Ok (String c o)
  end.

(** [pattern % n], for [n >= 0]. *)
Fixpoint format (pattern : string) (n : nat) : result string :=
  match pattern with
  | EmptyString => Raise TypeError
  | String "%" (String "%" r) => o ← format r n; Ok (String "%" o)
  | String "%" spec =>
      '(field, rest) ← convert spec n; o ← literal rest; Ok (field ++ o)
  | String c r => o ← format r n; Ok (String c o)
  end.

(** ** [math.ceil(math.log(n, 10))]

    The least [k] with [n <= 10 ^ k].  The program computes it in floating
    point; the model takes the exact value. For [n = 0], [math.log] raises
    [ValueError]. *)

Fixpoint ceil_log10_from (fuel k n : nat) : nat :=
  match fuel with
  | O => k
  | S fuel' => if (n <=? 10 ^ k)%nat then k else ceil_log10_from fuel' (S k) n
  end.

Definition ceil_log10 (n : nat) : nat := ceil_log10_from n 0 n.

Definition math_ceil_log10 (n : nat) : result nat :=
  if (n =? 0)%nat then Raise ValueError else Ok (ceil_log10 n).

(** [f'%0{width}d'] *)
Definition prefix_pattern (width : nat) : string := "%0" ++ str width ++ "d".

(** ** The collaborators *)

(** [os.rename(old, new)]: the filesystem after the call, or the [OSError]. *)
Class FileSystem (FS : Type) : Type :=
  os_rename : string → string → FS → result FS.

(** [re.sub(pattern, repl, s)]: the new string, or the error of an invalid
    pattern. *)
Class Regex : Type :=
  re_sub : string → string → string → result string.

(** The filesystem together with the renames done on it, oldest first. *)
Record World (FS : Type) : Type := mkWorld {
  fs : FS;
  renamed : list (string * string)
}.
Arguments mkWorld {FS} fs renamed.
Arguments fs {FS} w.
Arguments renamed {FS} w.

(** ** The session: [main] *)

Record State : Type := mkState {
  files : list string;
  current_idx : Z;
  first_selection : option Z;
  message : string
}.

(** The call of [prompt_user] the session waits in. *)
Inductive Prompt : Type :=
| RenamePrefix                     (* key x: "Rename prefix: " *)
| StripPattern                     (* key S: "Strip pattern: " *)
| RenameItem (old_name : string).  (* key r: "Rename '...': " *)

Inductive Session : Type :=
| Running (s : State)
| PromptActive (p : Prompt) (s : State) (e : EditBuffer)
| Exiting (s : State) (pattern : option string)  (* [main] returned *)
| Crashed (x : exn).                             (* an exception left [main] *)

Definition set_files (fl : list string) (s : State) : State :=
  mkState fl (current_idx s) (first_selection s) (message s).
Definition set_current_idx (i : Z) (s : State) : State :=
  mkState (files s) i (first_selection s) (message s).
Definition set_first_selection (a : option Z) (s : State) : State :=
  mkState (files s) (current_idx s) a (message s).
Definition set_message (m : string) (s : State) : State :=
  mkState (files s) (current_idx s) (first_selection s) m.

(** [(current_idx + delta) % len(files) if files else 0] *)
Definition moved (delta : Z) (s : State) : Z :=
  match files s with
  | [] => 0
  | _ => (current_idx s + delta) `mod` len (files s)
  end.

(** [l[i], l[j] = (l[j], l[i])] *)
Definition swap_items (l : list string) (i j : Z) : result (list string) :=
  a ← PyList.getitem l j;
  b ← PyList.getitem l i;
  l1 ← PyList.setitem l i a;
  PyList.setitem l1 j b.

(** Keys [K] and [J]: [adjust] is the new anchor when the cursor lands on it. *)
Definition swap_move (delta : Z) (adjust : Z → Z → Z) (s : State) : Session :=
  let old_idx := current_idx s in
  let new_idx := moved delta s in
  match swap_items (files s) old_idx new_idx with
  | Raise x => Crashed x
  | Ok fl =>
      let anchor :=
        match first_selection s with
        | Some a => if new_idx =? a then Some (adjust a (len fl)) else Some a
        | None => None
        end in
      Running (mkState fl new_idx anchor (message s))
  end.

(** Space or Enter: pick up, or drop what was picked up. *)
Definition select (s : State) : Session :=
  match first_selection s with
  | None => Running (set_first_selection (Some (current_idx s)) s)
  | Some a =>
      if a =? current_idx s then Running (set_first_selection None s)
      else
        match PyList.getitem (files s) a with
        | Raise x => Crashed x
        | Ok selected_value =>
            match PyList.pop (files s) a with
            | Raise x => Crashed x
            | Ok (_, fl) =>
                Running (set_first_selection None
                  (set_files (PyList.insert fl (current_idx s) selected_value) s))
            end
        end
  end.

Section Session.
Context {FS : Type} `{!FileSystem FS} `{!Regex}.

(** A call of [os.rename] from the program. *)
Definition rename (old new : string) (w : World FS) : result (World FS) :=
  match os_rename old new (fs w) with
  | Ok fs' => Ok (mkWorld fs' (renamed w ++ [(old, new)]))
  | Raise x => Raise x
  end.

(** [re.sub(pattern, '', v)], where [pattern] is what [prompt_user]
    returned. *)
Definition strip_name (pattern : option string) (v : string) : result string :=
  match pattern with
  | None => Raise TypeError
  | Some p => re_sub p "" v
  end.

(** The loop [for i, v in enumerate(files)] of key [S], from index [i] on;
    [fuel] bounds the number of turns.  The list is the one being
    iterated: a turn reads slot [i] and may overwrite it. *)
Fixpoint strip_loop (pattern : option string) (fuel i : nat)
    (fl : list string) (count : nat) (w : World FS)
    : World FS * result (list string * nat) :=
  match fuel with
  | O => (w, Ok (fl, count))
  | S fuel' =>
      match fl !! i with
      | None => (w, Ok (fl, count))
      | Some v =>
          match strip_name pattern v with
          | Raise x => (w, Raise x)
          | Ok new_name =>
              if String.eqb new_name v
              then strip_loop pattern fuel' (S i) fl count w
              else
                match rename v new_name w with
                | Raise x => (w, Raise x)
                | Ok w' =>
                    match strip_name pattern v with
                    | Raise x => (w', Raise x)
                    | Ok name' =>
                        strip_loop pattern fuel' (S i) (<[i:=name']> fl)
                          (S count) w'
                    end
                end
          end
      end
  end.

(** What [main] does with the value returned by [prompt_user]. *)
Definition resume (p : Prompt) (value : option string) (s : State)
    (w : World FS) : World FS * Session :=
  match p with
  | RenamePrefix => (w, Exiting s value)
  | StripPattern =>
      match strip_loop value (length (files s)) 0 (files s) 0 w with
      | (w', Ok (fl, count)) =>
          (w', Running (set_message ("Renamed " ++ str count ++ " files")
                          (set_files fl s)))
      | (w', Raise x) => (w', Crashed x)
      end
  | RenameItem old_name =>
      match value with
      | None => (w, Running s)
      | Some new_name =>
          if String.eqb new_name old_name then (w, Running s)
          else
            match rename old_name new_name w with
            | Raise x => (w, Running (set_message ("Error: " ++ exn_str x) s))
            | Ok w' =>
                match PyList.setitem (files s) (current_idx s) new_name with
                | Raise x =>
                    (w', Running (set_message ("Error: " ++ exn_str x) s))
                | Ok fl =>
                    (w', Running
                           (set_message ("Renamed '" ++ old_name ++ "' to '"
                                           ++ new_name ++ "'")
                              (set_files fl s)))
                end
            end
      end
  end.

(** One turn of the loop of [main], for the key read by [getch]; the
    message was drawn and is cleared. *)
Definition main_key (key : Z) (s0 : State) : Session :=
  let s := set_message "" s0 in
  if (key =? KEY_UP) || (key =? ord "k") then
    Running (set_current_idx (moved (-1) s) s)
  else if (key =? KEY_DOWN) || (key =? ord "j") then
    Running (set_current_idx (moved 1 s) s)
  else if key_in key [27; 3; 7] then
    Running (set_first_selection None s)
  else if key =? ord "K" then
    swap_move (-1) (fun a n => Z.min (a + 1) (n - 1)) s
  else if key =? ord "J" then
    swap_move 1 (fun a n => Z.max (a - 1) 0) s
  else if key_in key [KEY_ENTER; 10; 13; ord " "] then
    select s
  else if key_in key [3; ord "q"; ord "Q"] then
    Exiting s None
  else if key_in key [ord "x"; ord "X"] then
    match math_ceil_log10 (length (files s)) with
    | Raise x => Crashed x
    | Ok width => PromptActive RenamePrefix s (prompt_start (prefix_pattern width))
    end
  else if key =? ord "S" then
    PromptActive StripPattern s (prompt_start "^")
  else if key =? ord "r" then
    match PyList.getitem (files s) (current_idx s) with
    | Raise x => Crashed x
    | Ok old_name => PromptActive (RenameItem old_name) s (prompt_start old_name)
    end
  else Running s.

(** The session after one more key. *)
Definition step (key : Z) (c : World FS * Session) : World FS * Session :=
  match c with
  | (w, Running s) => (w, main_key key s)
  | (w, PromptActive p s e) =>
      match prompt_key key e with
      | Editing e' => (w, PromptActive p s e')
      | Returned value => resume p value s w
      | Faulted x => (w, Crashed x)
      end
  | (w, Exiting s pattern) => c
  | (w, Crashed x) => c
  end.

(** The session after the keys [keys], in the order typed. *)
Definition run (keys : list Z) (c : World FS * Session) : World FS * Session :=
  foldl (fun c key => step key c) c keys.

(** [main(stdscr, files)] starts here. *)
Definition start (fl : list string) : State := mkState fl 0 None "".

(** The loop [for i, f in enumerate(files)] of the entry point, from
    index [i] on. *)
Fixpoint enumerate_rename (pattern : string) (i : nat) (fl : list string)
    (w : World FS) : World FS * result unit :=
  match fl with
  | [] => (w, Ok tt)
  | f :: rest =>
      match format pattern (S i) with
      | Raise x => (w, Raise x)
      | Ok number =>
          match rename f (number ++ " " ++ f) w with
          | Raise x => (w, Raise x)
          | Ok w' => enumerate_rename pattern (S i) rest w'
          end
      end
  end.

(** How the program ends. *)
Inductive Exit : Type :=
| Usage                 (* no file given: usage message, status 1 *)
| Waiting               (* blocked in [getch]: the keys ran out *)
| Done                  (* normal end *)
| Traceback (x : exn).  (* uncaught exception *)

(** The entry point, on the arguments [argv[1:]] and the keys typed. *)
Definition program (args : list string) (keys : list Z) (w : World FS)
    : World FS * Exit :=
  match args with
  | [] => (w, Usage)
  | _ =>
      match run keys (w, Running (start args)) with
      | (w', Exiting s None) => (w', Done)
      | (w', Exiting s (Some pattern)) =>
          match enumerate_rename pattern 0 (files s) w' with
          | (w'', Ok _) => (w'', Done)
          | (w'', Raise x) => (w'', Traceback x)
          end
      | (w', Crashed x) => (w', Traceback x)
      | (w', _) => (w', Waiting)
      end
  end.
End Session.

(** ** Instances of the collaborators *)

(** A directory as the list of the names present in it.  [os.rename] fails
    when the source is missing and replaces the target otherwise. *)
Module Disk.
Definition remove (name : string) (d : list string) : list string :=
  List.filter (fun p => negb (String.eqb p name)) d.

Definition present (name : string) (d : list string) : bool :=
  existsb (String.eqb name) d.

Definition rename_entry (old new : string) (d : list string)
    : result (list string) :=
  if present old d then Ok (new :: remove new (remove old d))
  else Raise (OSError ("[Errno 2] No such file or directory: '" ++ old
                         ++ "' -> '" ++ new ++ "'")).

#[global] Instance file_system : FileSystem (list string) := rename_entry.

(** The directory that holds exactly [names], nothing renamed yet. *)
Definition world (names : list string) : World (list string) :=
  mkWorld names [].
End Disk.

(** The regular expressions made of plain characters, optionally anchored
    at the start by [^], with a replacement made of plain characters; any
    other pattern or replacement is [Unmodelled]. *)
Module Literal.
Definition special (c : ascii) : bool :=
  existsb (Ascii.eqb c) (list_ascii_of_string ".^$*+?{}[]\|()").

Definition plain (s : string) : bool :=
  forallb (fun c => negb (special c)) (list_ascii_of_string s).

(** Every occurrence of [p], found from left to right and not overlapping
    the one before, replaced by [repl]; [skip] characters of [s] belong to
    the occurrence just replaced. *)
Fixpoint sub_all (p repl : string) (skip : nat) (s : string) : string :=
  match s with
  | EmptyString => EmptyString
  | String c r =>
      match skip with
      | S k => sub_all p repl k r
      | O =>
          if String.prefix p s
          then repl ++ sub_all p repl (String.length p - 1) r
          else String c (sub_all p repl 0 r)
      end
  end.

Definition sub (pattern repl s : string) : result string :=
  if negb (plain repl) then Raise Unmodelled
  else
    match pattern with
    | EmptyString => Raise Unmodelled
    | String "^" p =>
        if plain p then
          Ok (if String.prefix p s
              then repl ++ String.substring (String.length p)
                             (String.length s - String.length p) s
              else s)
        else Raise Unmodelled
    | p => if plain p then Ok (sub_all p repl 0 s) else Raise Unmodelled
    end.

#[global] Instance regex : Regex := sub.
End Literal.

(** ** Specification vocabulary *)

(** [l'] differs from [l] at two neighbouring positions at most. *)
Definition only_adjacent_change (l l' : list string) : Prop :=
  ∃ i : nat, ∀ j : nat, l !! j ≠ l' !! j → j = i ∨ j = S i.

(** [s] without the first occurrence of the plain text [p]. *)
Fixpoint remove_first (p s : string) : string :=
  match s with
  | EmptyString => EmptyString
  | String c r =>
      if String.prefix p s
      then String.substring (String.length p)
             (String.length s - String.length p) s
      else String c (remove_first p r)
  end.

(** The renames a strip makes: the names that change, with their new name. *)
Definition changed (names new_names : list string) : list (string * string) :=
  List.filter (fun '(v, v') => negb (String.eqb v' v)) (zip names new_names).

(** The renames of the final enumeration with a zero-padded field of
    [width] digits: item [i] (from 0) gets the number [i + 1]. *)
Definition numbered (width : nat) (fl : list string) : list (string * string) :=
  imap (fun i f => (f, pad "0" width (str (S i)) ++ " " ++ f)) fl.

Section Renames.
Context {FS : Type} `{!FileSystem FS}.

(** The filesystem after the renames [pairs], done in order. *)
Fixpoint rename_all (pairs : list (string * string)) (d : FS) : result FS :=
  match pairs with
  | [] => Ok d
  | (old, new) :: rest => d' ← os_rename old new d; rename_all rest d'
  end.
End Renames.

(** The cursor is on an item. *)
Definition valid (s : State) : Prop := 0 <= current_idx s < len (files s).

Definition is_swap_key (key : Z) : Prop := key = ord "K" ∨ key = ord "J".

(** The step of the cursor for the keys that move it: up is [-1]. *)
Definition direction (key : Z) : Z :=
  if (key =? ord "K") || (key =? ord "k") || (key =? KEY_UP) then -1 else 1.

(** The cursor offset is a position of the buffer, the end included. *)
Definition in_buffer (e : EditBuffer) : Prop :=
  0 <= cursor_pos e <= len (buffer e).

(** What the line editor maintains: the offset is a position of the buffer,
    or it is [-1] and the buffer is empty. *)
Definition editor_inv (e : EditBuffer) : Prop :=
  in_buffer e ∨ (cursor_pos e = -1 ∧ buffer e = []).

(** The number of items of the session, while there is one. *)
Definition item_count (c : Session) : option nat :=
  match c with
  | Running s | PromptActive _ s _ | Exiting s _ => Some (length (files s))
  | Crashed _ => None
  end.

(** The state of the session, while there is one. *)
Definition session_state (c : Session) : option State :=
  match c with
  | Running s | PromptActive _ s _ | Exiting s _ => Some s
  | Crashed _ => None
  end.

(** ** The loop of [prompt_user], and more vocabulary *)

(** The [while True] loop of [prompt_user] on the keys [keys]: it ends with
    the first key that returns or raises, and is still [Editing] when the
    keys run out. *)
Fixpoint prompt_keys (keys : list Z) (e : EditBuffer) : PromptStep :=
  match keys with
  | [] => Editing e
  | key :: rest =>
      match prompt_key key e with
      | Editing e' => prompt_keys rest e'
      | done_ => done_
      end
  end.


(** The keys that type the characters [t]. *)
Definition text_keys (t : list ascii) : list Z := map ord t.

(** The characters the editor inserts: ASCII 32 to 126. *)
Definition printable (c : ascii) : Prop := 32 <= ord c <= 126.

(** The anchor, when set, is a row of the list. *)
Definition anchor_valid (s : State) : Prop :=
  ∀ a, first_selection s = Some a → 0 <= a < len (files s).

Definition well_formed (s : State) : Prop := valid s ∧ anchor_valid s.

Definition is_move_key (key : Z) : Prop :=
  key = KEY_UP ∨ key = ord "k" ∨ key = KEY_DOWN ∨ key = ord "j".

(** The keys of [main] that open a prompt. *)
Definition is_trigger (key : Z) : Prop :=
  key = ord "x" ∨ key = ord "X" ∨ key = ord "S" ∨ key = ord "r".

(** The sum of the cursor steps of the keys [keys]. *)
Definition travel (keys : list Z) : Z := foldr (fun key d => direction key + d) 0 keys.

(** No prompt is open and no pattern was returned. *)
Definition quiet (c : Session) : Prop :=
  match c with
  | Running _ | Crashed _ => True
  | Exiting _ pattern => pattern = None
  | PromptActive _ _ _ => False
  end.

(** The pattern holds no [%]: it cannot take the number. *)
Definition percent_free (pattern : string) : Prop :=
  "%"%char ∉ list_ascii_of_string pattern.


(** ** Properties *)

(** *** The model at work *)

(** Typing [x] at the end of [abc] and confirming gives [abcx]. *)
Example edit_then_confirm :
  prompt_key (ord "x") (prompt_start "abc")
  = Editing (mkEdit (list_ascii_of_string "abcx") 4)
  ∧ prompt_key 10 (mkEdit (list_ascii_of_string "abcx") 4) = Returned (Some "abcx").
Proof. split; reflexivity. Qed.

(** Escape cancels whatever the buffer holds; Enter on blanks cancels too. *)
Example cancel_or_blank :
  prompt_key 27 (prompt_start "abc") = Returned None
  ∧ prompt_key 10 (prompt_start "   ") = Returned None.
Proof. split; reflexivity. Qed.

(** Two items, down, pick up, up, drop: the items change places. *)
Example relocate_second_item :
  run [ord "j"; ord " "; ord "k"; ord " "]
    (Disk.world ["a.txt"; "b.txt"], Running (start ["b.txt"; "a.txt"]))
  = (Disk.world ["a.txt"; "b.txt"],
     Running (mkState ["a.txt"; "b.txt"] 0 None "")).
Proof. reflexivity. Qed.

(** With 11 items the default field is two digits wide. *)
Example eleven_items :
  let items := ["a"; "b"; "c"; "d"; "e"; "f"; "g"; "h"; "i"; "j"; "k"] in
  (program items [ord "x"; 10] (Disk.world items)).1.(renamed)
  = [("a", "01 a"); ("b", "02 b"); ("c", "03 c"); ("d", "04 d"); ("e", "05 e");
     ("f", "06 f"); ("g", "07 g"); ("h", "08 h"); ("i", "09 i"); ("j", "10 j");
     ("k", "11 k")].
Proof. reflexivity. Qed.

(** *** Python lists *)

Section PyListFacts.
Context {A : Type}.
Implicit Types (l : list A) (i : Z) (k : nat) (x v : A).

Lemma index_in_range l i :
  0 <= i < len l → PyList.index l i = Ok (Z.to_nat i).
Proof.
  intros Hi. unfold PyList.index, len in *.
  destruct (decide _) as [_|Hn]; [done | lia].
Qed.

Lemma index_at_length l :
  l ≠ [] → PyList.index l (len l) = Raise IndexError.
Proof.
  intros Hl. unfold PyList.index, len.
  destruct l as [|a l]; [done|]. simpl length.
  repeat destruct (decide _); try lia; done.
Qed.

Lemma lookup_in_range l i :
  0 <= i < len l → ∃ x, l !! Z.to_nat i = Some x.
Proof.
  intros Hi. apply lookup_lt_is_Some_2. unfold len in Hi. lia.
Qed.

Lemma getitem_in_range l i x :
  0 <= i → l !! Z.to_nat i = Some x → PyList.getitem l i = Ok x.
Proof.
  intros Hi Hx. unfold PyList.getitem.
  rewrite index_in_range.
  - simpl. by rewrite Hx.
  - apply lookup_lt_Some in Hx. unfold len. lia.
Qed.

Lemma setitem_in_range l i v :
  0 <= i < len l → PyList.setitem l i v = Ok (<[Z.to_nat i:=v]> l).
Proof. intros Hi. unfold PyList.setitem. by rewrite index_in_range. Qed.

Lemma pop_in_range l i x :
  0 <= i → l !! Z.to_nat i = Some x →
  PyList.pop l i = Ok (x, delete (Z.to_nat i) l).
Proof.
  intros Hi Hx. unfold PyList.pop.
  rewrite index_in_range.
  - simpl. by rewrite Hx.
  - apply lookup_lt_Some in Hx. unfold len. lia.
Qed.

Lemma insert_in_range l i v :
  0 <= i <= len l →
  PyList.insert l i v = (take (Z.to_nat i) l ++ v :: drop (Z.to_nat i) l)%list.
Proof.
  intros Hi. unfold PyList.insert, len in *.
  destruct (decide (i < 0)); [lia|]. by rewrite Z.min_l by lia.
Qed.

Lemma len_insert l k v : len (<[k:=v]> l) = len l.
Proof. unfold len. by rewrite length_insert. Qed.
End PyListFacts.

(** Exchanging two slots of a list, both in range. *)
Lemma swap_items_in_range (l : list string) (i j : Z) (x y : string) :
  0 <= i → 0 <= j →
  l !! Z.to_nat i = Some x → l !! Z.to_nat j = Some y →
  swap_items l i j = Ok (<[Z.to_nat j:=x]> (<[Z.to_nat i:=y]> l)).
Proof.
  intros Hi Hj Hx Hy. unfold swap_items.
  rewrite (getitem_in_range _ _ _ Hj Hy). simpl.
  rewrite (getitem_in_range _ _ _ Hi Hx). simpl.
  pose proof (lookup_lt_Some _ _ _ Hx). pose proof (lookup_lt_Some _ _ _ Hy).
  rewrite setitem_in_range by (unfold len; lia). simpl.
  rewrite setitem_in_range by (rewrite len_insert; unfold len; lia). done.
Qed.

(** *** Cursor moves *)

Lemma moved_nonempty (delta : Z) (s : State) (m : string) :
  1 <= len (files s) →
  moved delta (set_message m s) = (current_idx s + delta) `mod` len (files s).
Proof.
  unfold moved, len. simpl. destruct (files s); simpl length; [lia | done].
Qed.

(** C9: on a list of [N >= 1] items, the keys that move the cursor up set it
    to [(cursor - 1) mod N], which is [N - 1] from 0, and the keys that move
    it down set it to [(cursor + 1) mod N], which is 0 from [N - 1]; the
    items and the anchor are untouched. *)
Theorem cursor_moves_wrap (s : State) :
  1 <= len (files s) →
  let N := len (files s) in
  let at_row i := Running (mkState (files s) i (first_selection s) "") in
  (∀ key, key = KEY_UP ∨ key = ord "k" →
     main_key key s = at_row ((current_idx s - 1) `mod` N)
     ∧ (current_idx s = 0 → main_key key s = at_row (N - 1)))
  ∧ (∀ key, key = KEY_DOWN ∨ key = ord "j" →
     main_key key s = at_row ((current_idx s + 1) `mod` N)
     ∧ (current_idx s = N - 1 → main_key key s = at_row 0)).
Proof.
  intros HN N at_row. split; intros key Hkey.
  - assert (main_key key s = at_row ((current_idx s - 1) `mod` N)) as E.
    { destruct Hkey as [-> | ->]; unfold main_key; simpl;
        unfold set_current_idx; rewrite moved_nonempty by done; done. }
    split; [done|]. intros H0. rewrite E, H0. f_equal. f_equal.
    change (0 - 1) with (-1).
    rewrite <- (Z.mod_unique (-1) N (-1) (N - 1)); [done | lia | lia].
  - assert (main_key key s = at_row ((current_idx s + 1) `mod` N)) as E.
    { destruct Hkey as [-> | ->]; unfold main_key; simpl;
        unfold set_current_idx; rewrite moved_nonempty by done; done. }
    split; [done|]. intros H0. rewrite E, H0. f_equal. f_equal.
    replace (N - 1 + 1) with N by lia. apply Z.mod_same. lia.
Qed.

Lemma cursor_moves_wrap_witness :
  main_key KEY_UP (start ["a"; "b"; "c"])
  = Running (mkState ["a"; "b"; "c"] 2 None "").
Proof.
  pose proof (cursor_moves_wrap (start ["a"; "b"; "c"])) as H.
  simpl in H. destruct H as [Hup _]; [unfold len; simpl; lia|].
  destruct (Hup KEY_UP) as [_ H0]; [by left|]. by apply H0.
Defined.

(** *** Swap moves *)

Lemma moved_valid (delta : Z) (s : State) :
  valid s →
  moved delta s = (current_idx s + delta) `mod` len (files s)
  ∧ 0 <= moved delta s < len (files s).
Proof.
  unfold valid, moved, len. intros Hv.
  destruct (files s) as [|f fl] eqn:E; simpl length in *; [lia|].
  split; [done|]. apply Z.mod_pos_bound. lia.
Qed.

(** A swap move from a valid cursor: where the cursor goes and what the
    list becomes. *)
Lemma swap_move_valid (delta : Z) (adjust : Z → Z → Z) (s : State) :
  valid s →
  ∃ (x y : string) (anchor : option Z),
    let old_idx := current_idx s in
    let new_idx := (current_idx s + delta) `mod` len (files s) in
    files s !! Z.to_nat old_idx = Some x
    ∧ files s !! Z.to_nat new_idx = Some y
    ∧ 0 <= new_idx < len (files s)
    ∧ swap_move delta adjust s
      = Running (mkState (<[Z.to_nat new_idx:=x]> (<[Z.to_nat old_idx:=y]> (files s)))
                   new_idx anchor (message s)).
Proof.
  intros Hv. destruct (moved_valid delta s Hv) as [Hm Hr].
  destruct (lookup_in_range (files s) (current_idx s) Hv) as [x Hx].
  destruct (lookup_in_range (files s) (moved delta s) Hr) as [y Hy].
  unfold swap_move.
  rewrite (swap_items_in_range _ _ _ x y) by (done || apply Hv || apply Hr).
  rewrite <- Hm. eexists x, y, _. simpl. repeat split; try done; apply Hr.
Qed.

Lemma main_key_swap (key : Z) (s : State) :
  is_swap_key key →
  ∃ adjust, main_key key s = swap_move (direction key) adjust (set_message "" s).
Proof. intros [-> | ->]; eexists; reflexivity. Qed.

(** One swap move from a valid cursor. *)
Lemma swap_step (key : Z) (s : State) :
  valid s → is_swap_key key →
  ∃ s', main_key key s = Running s'
    ∧ valid s'
    ∧ current_idx s' = (current_idx s + direction key) `mod` len (files s)
    ∧ files s' ≡ₚ files s
    ∧ files s' !! Z.to_nat (current_idx s') = files s !! Z.to_nat (current_idx s)
    ∧ files s' !! Z.to_nat (current_idx s) = files s !! Z.to_nat (current_idx s')
    ∧ (∀ j : nat, Z.of_nat j ≠ current_idx s → Z.of_nat j ≠ current_idx s' →
         files s' !! j = files s !! j).
Proof.
  intros Hv Hkey. destruct (main_key_swap key s Hkey) as [adjust ->].
  destruct (swap_move_valid (direction key) adjust (set_message "" s) Hv)
    as (x & y & anchor & Hx & Hy & Hr & ->).
  simpl in *. set (c := current_idx s) in *.
  set (c' := (c + direction key) `mod` len (files s)) in *.
  assert (Z.to_nat c < length (files s))%nat as Hc by (by eapply lookup_lt_Some).
  assert (Z.to_nat c' < length (files s))%nat as Hc' by (by eapply lookup_lt_Some).
  eexists. split; [reflexivity|]. simpl.
  split. { unfold valid, len in *. simpl. rewrite !length_insert. apply Hr. }
  split; [done|].
  split. { by apply Permutation_insert_swap. }
  split. { rewrite list_lookup_insert_eq by (by rewrite length_insert). by rewrite Hx. }
  split.
  - rewrite Hy. destruct (decide (Z.to_nat c' = Z.to_nat c)) as [E|E].
    + rewrite E in *. rewrite list_lookup_insert_eq by (by rewrite length_insert).
      congruence.
    + rewrite list_lookup_insert_ne by done. by rewrite list_lookup_insert_eq.
  - intros j Hj Hj'. unfold valid in Hv. fold c in Hv.
    rewrite !list_lookup_insert_ne by lia. done.
Qed.

Section SessionFacts.
Context {FS : Type} `{!FileSystem FS} `{!Regex}.
Implicit Types (w : World FS) (s : State) (c : World FS * Session).

Lemma run_cons key keys c : run (key :: keys) c = run keys (step key c).
Proof. reflexivity. Qed.

Lemma run_app keys1 keys2 c : run (keys1 ++ keys2) c = run keys2 (run keys1 c).
Proof. unfold run. apply foldl_app. Qed.

(** C2 (amended): from a valid cursor, a swap move exchanges the item under
    the cursor with the item at the new cursor index [(cursor ± 1) mod N]
    and leaves every other position as it was; any sequence of swap moves
    yields a permutation of the list. *)
Theorem swap_moves_keep_items w s (keys : list Z) :
  valid s →
  Forall is_swap_key keys →
  (∀ key, is_swap_key key →
     ∃ s', step key (w, Running s) = (w, Running s')
       ∧ current_idx s' = (current_idx s + direction key) `mod` len (files s)
       ∧ files s' !! Z.to_nat (current_idx s') = files s !! Z.to_nat (current_idx s)
       ∧ files s' !! Z.to_nat (current_idx s) = files s !! Z.to_nat (current_idx s')
       ∧ (∀ j : nat, Z.of_nat j ≠ current_idx s → Z.of_nat j ≠ current_idx s' →
            files s' !! j = files s !! j))
  ∧ ∃ s', run keys (w, Running s) = (w, Running s')
      ∧ valid s'
      ∧ files s' ≡ₚ files s.
Proof.
  intros Hv Hkeys. split.
  - intros key Hkey.
    destruct (swap_step key s Hv Hkey) as (s' & E & _ & Hc & _ & H1 & H2 & H3).
    exists s'. simpl. rewrite E. done.
  - revert s Hv. induction Hkeys as [|key keys Hkey _ IH]; intros s Hv.
    + exists s. done.
    + destruct (swap_step key s Hv Hkey) as (s1 & E & Hv1 & _ & Hp & _).
      destruct (IH s1 Hv1) as (s' & Hrun & Hv' & Hp').
      exists s'. rewrite run_cons. simpl. rewrite E, Hrun.
      split; [done|]. split; [done|]. by rewrite Hp'.
Qed.
End SessionFacts.

Lemma swap_moves_keep_items_witness :
  ∃ s', run [ord "K"; ord "J"; ord "J"] (Disk.world [], Running (start ["a"; "b"; "c"]))
        = (Disk.world [], Running s')
    ∧ valid s'
    ∧ files s' ≡ₚ ["a"; "b"; "c"].
Proof.
  apply (swap_moves_keep_items (Disk.world []) (start ["a"; "b"; "c"])
           [ord "K"; ord "J"; ord "J"]).
  - unfold valid, len. simpl. lia.
  - repeat constructor; by (left + right).
Defined.

(** C2 (counterexample): with the cursor on the first of three items, a swap
    move up wraps around and exchanges the first item with the last: the two
    positions that change are not neighbours. *)
Lemma swap_move_up_wraps_to_far_end :
  main_key (ord "K") (start ["a"; "b"; "c"])
  = Running (mkState ["c"; "b"; "a"] 2 None "")
  ∧ ¬ only_adjacent_change ["a"; "b"; "c"] ["c"; "b"; "a"].
Proof.
  split; [reflexivity|]. intros [i Hi].
  assert (0 = i ∨ 0 = S i)%nat as H0 by (apply Hi; simpl; congruence).
  assert (2 = i ∨ 2 = S i)%nat as H2 by (apply Hi; simpl; congruence).
  lia.
Qed.

(** C3: two items, the second one picked up (anchor and cursor on row 1);
    a swap move up carries the item to row 0 without wrapping, and the
    anchor stays on row 1, which now holds the other item. *)
Theorem anchor_stays_behind_moved_item :
  let s := mkState ["a"; "b"] 1 (Some 1) "" in
  run [ord "j"; ord " "] (Disk.world [], Running (start ["a"; "b"]))
  = (Disk.world [], Running s)
  ∧ main_key (ord "K") s = Running (mkState ["b"; "a"] 0 (Some 1) "")
  ∧ moved (-1) s = current_idx s - 1
  ∧ PyList.getitem ["a"; "b"] 1 = Ok "b"
  ∧ PyList.getitem ["b"; "a"] 1 = Ok "a".
Proof. repeat split. Qed.

(** The case the swap moves do handle: an anchor on the row the cursor
    moves to, or on any row the move does not touch, still denotes its item
    after a move that does not wrap around. *)
Lemma anchor_follows_displaced_item (key : Z) (s : State) (a : Z) :
  valid s → is_swap_key key →
  first_selection s = Some a →
  0 <= a < len (files s) →
  a ≠ current_idx s →
  0 <= current_idx s + direction key < len (files s) →
  ∃ s' a', main_key key s = Running s'
    ∧ first_selection s' = Some a'
    ∧ files s' !! Z.to_nat a' = files s !! Z.to_nat a.
Proof.
  intros Hv Hkey Ha Hr Hne Hnw.
  destruct (lookup_in_range (files s) (current_idx s) Hv) as [x Hx].
  destruct (lookup_in_range (files s) (current_idx s + direction key) Hnw) as [y Hy].
  pose proof (lookup_lt_Some _ _ _ Hx) as Hlx.
  pose proof (lookup_lt_Some _ _ _ Hy) as Hly.
  assert (moved (direction key) (set_message "" s) = current_idx s + direction key) as Hm.
  { rewrite moved_nonempty by (unfold valid in Hv; lia). by apply Z.mod_small. }
  assert (∃ a', main_key key s
          = Running (mkState
                       (<[Z.to_nat (current_idx s + direction key):=x]>
                          (<[Z.to_nat (current_idx s):=y]> (files s)))
                       (current_idx s + direction key)
                       (Some a') "")
          ∧ (if current_idx s + direction key =? a
             then a' = current_idx s else a' = a)) as (a' & -> & Ha').
  { unfold valid in Hv.
    destruct Hkey as [-> | ->].
    - change (direction (ord "K")) with (-1) in *.
      change (main_key (ord "K") s)
        with (swap_move (-1) (fun a n => Z.min (a + 1) (n - 1)) (set_message "" s)).
      unfold swap_move. rewrite Hm.
      change (files (set_message "" s)) with (files s).
      change (current_idx (set_message "" s)) with (current_idx s).
      change (first_selection (set_message "" s)) with (first_selection s).
      rewrite (swap_items_in_range _ _ _ x y) by (done || lia).
      rewrite Ha.
      destruct (Z.eqb_spec (current_idx s + -1) a) as [<-|_];
        (eexists; split; [reflexivity|]); [|done].
      unfold len. rewrite !length_insert. fold (len (files s)). lia.
    - change (direction (ord "J")) with 1 in *.
      change (main_key (ord "J") s)
        with (swap_move 1 (fun a n => Z.max (a - 1) 0) (set_message "" s)).
      unfold swap_move. rewrite Hm.
      change (files (set_message "" s)) with (files s).
      change (current_idx (set_message "" s)) with (current_idx s).
      change (first_selection (set_message "" s)) with (first_selection s).
      rewrite (swap_items_in_range _ _ _ x y) by (done || lia).
      rewrite Ha.
      destruct (Z.eqb_spec (current_idx s + 1) a) as [<-|_];
        (eexists; split; [reflexivity|]); [|done].
      lia. }
  eexists _, a'. split; [reflexivity|]. split; [done|]. simpl.
  unfold valid in Hv.
  destruct (Z.eqb_spec (current_idx s + direction key) a) as [<-|Hna]; subst a'.
  - rewrite list_lookup_insert_ne by lia.
    rewrite list_lookup_insert_eq by lia. done.
  - rewrite !list_lookup_insert_ne by lia. done.
Qed.

(** *** Pick-up and drop *)

Lemma key_in_cases (key : Z) (ks : list Z) :
  key_in key ks = true ↔ key ∈ ks.
Proof.
  unfold key_in. rewrite existsb_exists. split.
  - intros (k & Hin & E). apply Z.eqb_eq in E. subst. by apply list_elem_of_In.
  - intros Hin. exists key. split; [by apply list_elem_of_In | apply Z.eqb_refl].
Qed.

Lemma main_key_select (key : Z) (s : State) :
  key_in key [KEY_ENTER; 10; 13; ord " "] = true →
  main_key key s = select (set_message "" s).
Proof.
  rewrite key_in_cases. intros Hin.
  repeat (apply elem_of_cons in Hin as [-> | Hin]; [reflexivity|]).
  by apply elem_of_nil in Hin.
Qed.

Section Relocation.
Context {A : Type}.
Implicit Types (l : list A) (k : nat) (x : A).

Lemma lookup_inserted l k x :
  (k ≤ length l)%nat → (take k l ++ x :: drop k l)%list !! k = Some x.
Proof.
  intros Hk. rewrite lookup_app_r by (rewrite length_take; lia).
  rewrite length_take_le by done. by rewrite Nat.sub_diag.
Qed.

Lemma delete_inserted l k x :
  (k ≤ length l)%nat → delete k (take k l ++ x :: drop k l)%list = l.
Proof.
  revert l. induction k as [|k IH]; intros l Hk.
  - by rewrite take_0, drop_0.
  - destruct l as [|a l]; simpl in *; [lia|]. f_equal. apply IH. lia.
Qed.

Lemma length_inserted l k x :
  length (take k l ++ x :: drop k l)%list = S (length l).
Proof.
  rewrite length_app. simpl. rewrite length_take, length_drop. lia.
Qed.
End Relocation.

(** C4: Space or Enter with no anchor picks up the row under the cursor.
    With the anchor on row [A] and the cursor on row [B], the same key drops:
    if [A ≠ B] the item of row [A] is removed and reinserted at row [B], so
    that it is the item of row [B] afterwards and the list without it is the
    old list without it (the other items keep their order), and the anchor is
    cleared; if [A = B] the list and the cursor are unchanged and the anchor
    is cleared. *)
Theorem pick_up_then_drop (s : State) (key : Z) (A B : Z) :
  key_in key [KEY_ENTER; 10; 13; ord " "] = true →
  0 <= A < len (files s) →
  0 <= B < len (files s) →
  current_idx s = B →
  (first_selection s = None →
     main_key key s = Running (mkState (files s) B (Some B) ""))
  ∧ (first_selection s = Some A → A ≠ B →
     ∃ (x : string) (fl : list string),
       files s !! Z.to_nat A = Some x
       ∧ main_key key s = Running (mkState fl B None "")
       ∧ fl = (take (Z.to_nat B) (delete (Z.to_nat A) (files s))
               ++ x :: drop (Z.to_nat B) (delete (Z.to_nat A) (files s)))%list
       ∧ fl !! Z.to_nat B = Some x
       ∧ delete (Z.to_nat B) fl = delete (Z.to_nat A) (files s)
       ∧ length fl = length (files s))
  ∧ (first_selection s = Some A → A = B →
     main_key key s = Running (mkState (files s) B None "")).
Proof.
  intros Hkey HA HB Hc. rewrite (main_key_select key s Hkey).
  unfold select, set_first_selection, set_files, set_message. simpl. rewrite !Hc.
  split; [|split].
  - intros ->. reflexivity.
  - intros -> Hne. destruct (Z.eqb_spec A B) as [|_]; [done|].
    destruct (lookup_in_range (files s) A HA) as [x Hx].
    pose proof (lookup_lt_Some _ _ _ Hx) as HlA.
    assert (Z.to_nat B ≤ length (delete (Z.to_nat A) (files s)))%nat as HlB.
    { rewrite length_delete by eauto. unfold len in HB. lia. }
    rewrite (getitem_in_range _ _ x) by (done || lia).
    rewrite (pop_in_range _ _ x) by (done || lia).
    rewrite insert_in_range by (unfold len; lia).
    eexists x, _. split; [done|]. split; [reflexivity|]. split; [done|].
    split; [by apply lookup_inserted|]. split; [by apply delete_inserted|].
    rewrite length_inserted, length_delete by eauto. lia.
  - intros -> ->. by rewrite Z.eqb_refl.
Qed.

Lemma pick_up_then_drop_witness :
  ∃ (x : string) (fl : list string),
    ["b.txt"; "a.txt"] !! Z.to_nat 1 = Some x
    ∧ main_key (ord " ") (mkState ["b.txt"; "a.txt"] 0 (Some 1) "")
      = Running (mkState fl 0 None "")
    ∧ fl = (take (Z.to_nat 0) (delete (Z.to_nat 1) ["b.txt"; "a.txt"])
            ++ x :: drop (Z.to_nat 0) (delete (Z.to_nat 1) ["b.txt"; "a.txt"]))%list
    ∧ fl !! Z.to_nat 0 = Some x
    ∧ delete (Z.to_nat 0) fl = delete (Z.to_nat 1) ["b.txt"; "a.txt"]
    ∧ length fl = length ["b.txt"; "a.txt"].
Proof.
  apply (pick_up_then_drop (mkState ["b.txt"; "a.txt"] 0 (Some 1) "") (ord " ") 1 0);
    (reflexivity || (unfold len; simpl; lia) || lia).
Defined.

(** *** The line editor *)

Lemma pop_cases {A : Type} (l : list A) (i : Z) :
  (∃ x, 0 <= i < len l ∧ PyList.pop l i = Ok (x, delete (Z.to_nat i) l))
  ∨ (∃ x, - len l <= i < 0
          ∧ PyList.pop l i = Ok (x, delete (Z.to_nat (i + len l)) l))
  ∨ ((i < - len l ∨ len l <= i) ∧ PyList.pop l i = Raise IndexError).
Proof.
  unfold PyList.pop, PyList.index, len.
  destruct (decide (0 <= i < _)) as [Hi|Hi]; simpl.
  - left. destruct (lookup_lt_is_Some_2 l (Z.to_nat i)) as [x Hx]; [lia|].
    exists x. by rewrite Hx.
  - destruct (decide (- _ <= i < 0)) as [Hn|Hn]; simpl.
    + right; left.
      destruct (lookup_lt_is_Some_2 l (Z.to_nat (i + Z.of_nat (length l)))) as [x Hx]; [lia|].
      exists x. by rewrite Hx.
    + right; right. split; [lia | done].
Qed.

Lemma len_delete {A : Type} (l : list A) (k : nat) :
  (k < length l)%nat → len (delete k l) = len l - 1.
Proof.
  intros Hk. unfold len. rewrite length_delete by (by apply lookup_lt_is_Some_2). lia.
Qed.

Lemma len_py_insert {A : Type} (l : list A) (i : Z) (v : A) :
  len (PyList.insert l i v) = len l + 1.
Proof. unfold PyList.insert, len. rewrite length_inserted. lia. Qed.

Lemma len_nonneg {A : Type} (l : list A) : 0 <= len l.
Proof. unfold len. lia. Qed.

Lemma len_zero {A : Type} (l : list A) : len l = 0 ↔ l = [].
Proof. unfold len. destruct l; simpl; split; (done || lia). Qed.

(** Delete-forward, case by case. *)
Lemma delete_forward_cases (e : EditBuffer) :
  in_buffer e →
  (cursor_pos e < len (buffer e) →
     prompt_key 4 e
     = Editing (mkEdit (delete (Z.to_nat (cursor_pos e)) (buffer e)) (cursor_pos e)))
  ∧ (buffer e = [] → prompt_key 4 e = Editing e)
  ∧ (buffer e ≠ [] → cursor_pos e = len (buffer e) →
     prompt_key 4 e = Faulted IndexError).
Proof.
  destruct e as [b p]. unfold in_buffer. simpl. intros Hp.
  unfold prompt_key. simpl. split; [|split].
  - intros Hlt. destruct (Z.ltb_spec 0 (len b)); [|lia].
    destruct (pop_cases b p) as [(x & _ & ->) | [(x & ? & _) | [? _]]]; [done | lia | lia].
  - intros ->. done.
  - intros Hne ->. destruct (Z.ltb_spec 0 (len b)) as [_|H0].
    + destruct (pop_cases b (len b)) as [(x & ? & _) | [(x & ? & _) | [_ ->]]];
        [lia | lia | done].
    + destruct Hne. apply len_zero. pose proof (len_nonneg b). lia.
Qed.

(** C7: the prompt opens with the cursor after the last character; there
    the delete key pops at an index equal to the length of the buffer, and
    the [IndexError] leaves [prompt_user], [main] and the program. *)
Theorem delete_forward_at_end_faults :
  prompt_start "abc" = mkEdit (list_ascii_of_string "abc") 3
  ∧ prompt_key 4 (prompt_start "abc") = Faulted IndexError
  ∧ run [ord "r"; 4] (Disk.world ["abc"], Running (start ["abc"]))
    = (Disk.world ["abc"], Crashed IndexError)
  ∧ program ["abc"] [ord "r"; 4] (Disk.world ["abc"])
    = (Disk.world ["abc"], Traceback IndexError).
Proof. repeat split. Qed.

Lemma prompt_start_in_buffer (default_value : string) :
  in_buffer (prompt_start default_value).
Proof. unfold in_buffer, prompt_start. simpl. pose proof (len_nonneg (list_ascii_of_string default_value)). lia. Qed.

(** C8 (amended): every key keeps the offset a position of the buffer,
    except that jump-to-end, which sets the offset to [length - 1], sets it
    to [-1] on an empty buffer; an offset of [-1] only occurs with an empty
    buffer.  The one key that can fail to give a new buffer is delete-forward
    with the cursor at the end of a non-empty buffer. *)
Theorem editor_offset_range (key : Z) (e : EditBuffer) :
  editor_inv e →
  match prompt_key key e with
  | Editing e' =>
      editor_inv e'
      ∧ (cursor_pos e' = -1 → buffer e = [] ∧ (key = 5 ∨ cursor_pos e = -1))
  | Returned _ => True
  | Faulted x =>
      key = 4 ∧ x = IndexError ∧ buffer e ≠ [] ∧ cursor_pos e = len (buffer e)
  end
  ∧ prompt_key 5 e = Editing (mkEdit (buffer e) (len (buffer e) - 1)).
Proof.
  intros Hinv. split; [|reflexivity].
  destruct e as [b p]. unfold editor_inv, in_buffer in *. simpl in Hinv.
  pose proof (len_nonneg b) as Hb. pose proof (len_zero b) as Hz.
  unfold prompt_key. simpl buffer. simpl cursor_pos.
  destruct (key_in key [KEY_ENTER; 10; 13]). { by destruct (strip b). }
  destruct (Z.eqb_spec key 1). { simpl. split; [left|]; lia. }
  destruct (Z.eqb_spec key 4).
  { destruct (Z.ltb_spec 0 (len b)) as [Hpos|Hnil].
    - destruct (pop_cases b p) as [(x & Hp & ->) | [(x & Hp & ->) | [Hp ->]]].
      + simpl. split; [left|lia]. rewrite len_delete by (unfold len in Hp; lia). lia.
      + exfalso. destruct Hinv as [?|[_ ->]]; [lia | unfold len in Hpos; simpl in Hpos; lia].
      + split; [done|]. split; [done|]. split.
        * intros ->. unfold len in Hpos. simpl in Hpos. lia.
        * destruct Hinv as [?|[_ ->]]; [lia | unfold len in Hpos; simpl in Hpos; lia].
    - simpl. split; [done|]. intros ->. split; [|by right]. apply Hz. lia. }
  destruct (Z.eqb_spec key 5).
  { simpl. split.
    - destruct (decide (len b = 0)) as [E|E].
      + right. split; [lia | by apply Hz].
      + left. lia.
    - intros E. split; [apply Hz; lia | by left]. }
  destruct (key_in key [27; 3; 7]); [done|].
  destruct (key_in key [KEY_BACKSPACE; 127; 8]).
  { destruct (Z.ltb_spec 0 p) as [Hpos|Hnil].
    - destruct (pop_cases b (p - 1)) as [(x & Hp & ->) | [(x & Hp & ->) | [Hp ->]]].
      + simpl. split; [left|lia]. rewrite len_delete by (unfold len in Hp; lia). lia.
      + lia.
      + exfalso. destruct Hinv as [?|[? _]]; lia.
    - simpl. split; [done|]. intros ->. split; [|by right].
      destruct Hinv as [?|[_ ->]]; [lia | done]. }
  destruct (key_in key [2; KEY_LEFT]).
  { destruct (Z.ltb_spec 0 p) as [Hpos|Hnil]; simpl.
    - split; [left|]; lia.
    - split; [done|]. intros ->. split; [|by right].
      destruct Hinv as [?|[_ ->]]; [lia | done]. }
  destruct (key_in key [6; KEY_RIGHT]).
  { destruct (Z.ltb_spec p (len b)) as [Hlt|Hge]; simpl.
    - split; [left|]; lia.
    - split; [done|]. intros ->. lia. }
  destruct ((32 <=? key) && (key <=? 126)); simpl.
  - split; [left|].
    + rewrite len_py_insert. lia.
    + lia.
  - split; [done|]. intros ->. split; [|by right].
    destruct Hinv as [?|[_ ->]]; [lia | done].
Qed.

Lemma editor_offset_range_witness :
  match prompt_key 5 (prompt_start "") with
  | Editing e' =>
      editor_inv e'
      ∧ (cursor_pos e' = -1 →
         buffer (prompt_start "") = [] ∧ (5 = 5 ∨ cursor_pos (prompt_start "") = -1))
  | Returned _ => True
  | Faulted x =>
      5 = 4 ∧ x = IndexError ∧ buffer (prompt_start "") ≠ []
      ∧ cursor_pos (prompt_start "") = len (buffer (prompt_start ""))
  end
  ∧ prompt_key 5 (prompt_start "")
    = Editing (mkEdit (buffer (prompt_start "")) (len (buffer (prompt_start "")) - 1)).
Proof.
  apply (editor_offset_range 5 (prompt_start "")).
  left. unfold in_buffer, prompt_start, len. simpl. lia.
Defined.

(** C8 (counterexample): Backspace on the default strip pattern empties the
    buffer; there jump-to-end sets the offset to [-1], which is not a
    position of the buffer. *)
Lemma jump_to_end_of_empty_buffer :
  prompt_key 127 (prompt_start "^") = Editing (mkEdit [] 0)
  ∧ prompt_key 5 (mkEdit [] 0) = Editing (mkEdit [] (-1))
  ∧ in_buffer (mkEdit [] 0)
  ∧ ¬ in_buffer (mkEdit [] (-1)).
Proof.
  split; [reflexivity|]. split; [reflexivity|].
  unfold in_buffer, len. simpl. split; lia.
Qed.

(** *** Strip rename *)

Section StripFacts.
Context {FS : Type} `{!FileSystem FS} `{!Regex}.
Implicit Types (w : World FS) (s : State) (fl names : list string).

Lemma changed_cons_same v fl names :
  changed (v :: fl) (v :: names) = changed fl names.
Proof. unfold changed. simpl. by rewrite String.eqb_refl. Qed.

Lemma changed_cons_other v v' fl names :
  String.eqb v' v = false →
  changed (v :: fl) (v' :: names) = (v, v') :: changed fl names.
Proof. intros E. unfold changed. simpl. by rewrite E. Qed.

(** The loop of key [S] from slot [length done] on, when the pattern is
    valid on the names left and their renames succeed. *)
Lemma strip_loop_from pattern (done_ rest names : list string) count w d :
  Forall2 (fun v v' => re_sub pattern "" v = Ok v') rest names →
  rename_all (changed rest names) (fs w) = Ok d →
  strip_loop (Some pattern) (length rest) (length done_) (done_ ++ rest) count w
  = (mkWorld d (renamed w ++ changed rest names),
     Ok ((done_ ++ names)%list, (count + length (changed rest names))%nat)).
Proof.
  intros Hsub. revert done_ count w.
  induction Hsub as [|v v' rest names Hv _ IH]; intros done_ count w Hren.
  - simpl in *. injection Hren as <-. destruct w as [d0 log]. simpl.
    by rewrite !app_nil_r, Nat.add_0_r.
  - simpl strip_loop. rewrite list_lookup_middle by done.
    simpl. rewrite Hv.
    destruct (String.eqb_spec v' v) as [->|Hne].
    + rewrite changed_cons_same in *.
      specialize (IH (done_ ++ [v])%list count w Hren).
      rewrite length_app, Nat.add_1_r, <- !app_assoc in IH. exact IH.
    + assert (String.eqb v' v = false) as E by (by apply String.eqb_neq).
      rewrite (changed_cons_other _ _ _ _ E) in *.
      simpl in Hren. unfold rename.
      destruct (os_rename v v' (fs w)) as [d1|x] eqn:Hos; [|discriminate].
      simpl in Hren.
      replace (<[length done_:=v']> (done_ ++ v :: rest)%list)
        with ((done_ ++ [v']) ++ rest)%list.
      2:{ rewrite <- (Nat.add_0_r (length done_)), insert_app_r. simpl.
          by rewrite <- app_assoc. }
      specialize (IH (done_ ++ [v'])%list (S count)
                    (mkWorld d1 (renamed w ++ [(v, v')])) Hren).
      rewrite length_app, Nat.add_1_r, <- !app_assoc in IH. simpl in IH.
      rewrite <- app_assoc. simpl. rewrite IH, <- app_assoc. simpl.
      do 3 f_equal. lia.
Qed.

(** What the session does with a confirmed strip pattern. *)
Lemma resume_strip pattern s w names d :
  Forall2 (fun v v' => re_sub pattern "" v = Ok v') (files s) names →
  rename_all (changed (files s) names) (fs w) = Ok d →
  resume StripPattern (Some pattern) s w
  = (mkWorld d (renamed w ++ changed (files s) names),
     Running (mkState names (current_idx s) (first_selection s)
                ("Renamed " ++ str (length (changed (files s) names)) ++ " files"))).
Proof.
  intros Hsub Hren. unfold resume.
  pose proof (strip_loop_from pattern [] (files s) names 0 w d Hsub Hren) as E.
  simpl in E. rewrite E. reflexivity.
Qed.

Lemma changed_same fl : changed fl fl = [].
Proof.
  induction fl as [|v fl IH]; [done|]. by rewrite changed_cons_same.
Qed.

(** A pattern that changes no name renames nothing. *)
Lemma resume_strip_nothing pattern s w :
  Forall (fun v => re_sub pattern "" v = Ok v) (files s) →
  resume StripPattern (Some pattern) s w
  = (w, Running (mkState (files s) (current_idx s) (first_selection s)
                   "Renamed 0 files")).
Proof.
  intros Hsame.
  rewrite (resume_strip pattern s w (files s) (fs w)).
  - rewrite changed_same. destruct w. simpl. by rewrite app_nil_r.
  - induction Hsame; by constructor.
  - by rewrite changed_same.
Qed.
End StripFacts.

Lemma changed_differ (fl names : list string) (v v' : string) :
  (v, v') ∈ changed fl names → v' ≠ v.
Proof.
  unfold changed. rewrite list_elem_of_In, filter_In.
  intros [_ E]. apply negb_true_iff in E. by apply String.eqb_neq.
Qed.

Section StripRename.
Context {FS : Type} `{!FileSystem FS} `{!Regex}.

(** C5 (amended): with a valid pattern and renames that succeed, the strip
    replaces each name [v] by [re.sub(pattern, '', v)], computed from the
    original name: it renames the items whose name changes, in list order,
    leaves the others untouched and reports how many it renamed.
    [re.sub] removes every match of the pattern, not only the first.  With
    the default pattern [^], which changes no name, nothing is renamed and
    the count is 0. *)
Theorem strip_rename_removes_matches (w : World FS) (s : State)
    (pattern : string) (names : list string) (d : FS) :
  Forall2 (fun v v' => re_sub pattern "" v = Ok v') (files s) names →
  rename_all (changed (files s) names) (fs w) = Ok d →
  resume StripPattern (Some pattern) s w
  = (mkWorld d (renamed w ++ changed (files s) names),
     Running (mkState names (current_idx s) (first_selection s)
                ("Renamed " ++ str (length (changed (files s) names)) ++ " files")))
  ∧ (∀ v v', (v, v') ∈ changed (files s) names → v' ≠ v)
  ∧ (Forall (fun v => re_sub "^" "" v = Ok v) (files s) →
     run [ord "S"; 10] (w, Running s)
     = (w, Running (mkState (files s) (current_idx s) (first_selection s)
                      "Renamed 0 files"))).
Proof.
  intros Hsub Hren. split; [by apply resume_strip|]. split.
  - intros v v'. apply changed_differ.
  - intros Hsame. unfold run. simpl.
    change (resume StripPattern (Some "^") (set_message "" s) w
            = (w, Running (mkState (files s) (current_idx s) (first_selection s)
                             "Renamed 0 files"))).
    by rewrite resume_strip_nothing.
Qed.

(** A single rename that the filesystem rejects: the list is left as it
    was, the message carries the reason and the session goes on. *)
Lemma single_rename_failure_recovered (w : World FS) (s : State)
    (old_name new_name : string) (x : exn) :
  new_name ≠ old_name →
  os_rename old_name new_name (fs w) = Raise x →
  resume (RenameItem old_name) (Some new_name) s w
  = (w, Running (mkState (files s) (current_idx s) (first_selection s)
                   ("Error: " ++ exn_str x))).
Proof.
  intros Hne Hos. unfold resume, rename.
  apply String.eqb_neq in Hne. by rewrite Hne, Hos.
Qed.
End StripRename.

Lemma strip_rename_removes_matches_witness :
  resume StripPattern (Some "a") (start ["banana"; "kiwi"])
    (Disk.world ["banana"; "kiwi"])
  = (mkWorld ["bnn"; "kiwi"] [("banana", "bnn")],
     Running (mkState ["bnn"; "kiwi"] 0 None "Renamed 1 files"))
  ∧ run [ord "S"; 10] (Disk.world ["banana"; "kiwi"], Running (start ["banana"; "kiwi"]))
    = (Disk.world ["banana"; "kiwi"],
       Running (mkState ["banana"; "kiwi"] 0 None "Renamed 0 files")).
Proof.
  destruct (strip_rename_removes_matches (Disk.world ["banana"; "kiwi"])
              (start ["banana"; "kiwi"]) "a" ["bnn"; "kiwi"] ["bnn"; "kiwi"])
    as (Hres & _ & Hdefault).
  - repeat constructor.
  - reflexivity.
  - split; [exact Hres|]. apply Hdefault. repeat constructor.
Defined.

(** C5 (counterexample): stripping the pattern [a] from [banana] removes the
    three matches, where removing the first match only would leave
    [bnana]. *)
Lemma strip_removes_every_match :
  run [ord "S"; 127; ord "a"; 10] (Disk.world ["banana"], Running (start ["banana"]))
  = (mkWorld ["bnn"] [("banana", "bnn")],
     Running (mkState ["bnn"] 0 None "Renamed 1 files"))
  ∧ remove_first "a" "banana" = "bnana"
  ∧ "bnn" ≠ remove_first "a" "banana".
Proof. split; [reflexivity|]. split; [reflexivity|]. discriminate. Qed.

(** C6: two items of which the second is missing on disk; the strip renames
    the first, and the [OSError] of the second rename, which nothing
    catches, ends the program. *)
Theorem strip_rename_failure_ends_program :
  program ["a1"; "a2"] [ord "S"; 127; ord "a"; 10] (Disk.world ["a1"])
  = (mkWorld ["1"] [("a1", "1")],
     Traceback (OSError "[Errno 2] No such file or directory: 'a2' -> '2'"))
  ∧ program ["a1"; "a2"] [ord "j"; ord "r"; 127; ord "3"; 10; ord "q"] (Disk.world ["a1"])
    = (Disk.world ["a1"], Done)
  ∧ run [ord "j"; ord "r"; 127; ord "3"; 10] (Disk.world ["a1"], Running (start ["a1"; "a2"]))
    = (Disk.world ["a1"],
       Running (mkState ["a1"; "a2"] 1 None
                  "Error: [Errno 2] No such file or directory: 'a2' -> 'a3'")).
Proof. repeat split. Qed.

(** *** Session transitions *)

Lemma swap_move_not_exiting delta adjust s s' pattern :
  swap_move delta adjust s ≠ Exiting s' pattern.
Proof. unfold swap_move. by destruct (swap_items _ _ _). Qed.

Lemma select_not_exiting s s' pattern : select s ≠ Exiting s' pattern.
Proof.
  unfold select. destruct (first_selection s) as [a|]; [|done].
  destruct (a =? current_idx s); [done|].
  destruct (PyList.getitem _ _); [|done].
  by destruct (PyList.pop _ _) as [[? ?]|].
Qed.

(** The keys on which [main] returns without a prompt: [q] and [Q]. *)
Lemma main_key_exiting (key : Z) (s s' : State) (pattern : option string) :
  main_key key s = Exiting s' pattern →
  (key = ord "q" ∨ key = ord "Q") ∧ pattern = None ∧ s' = set_message "" s.
Proof.
  unfold main_key.
  destruct ((key =? KEY_UP) || (key =? ord "k")); [done|].
  destruct ((key =? KEY_DOWN) || (key =? ord "j")); [done|].
  destruct (key_in key [27; 3; 7]) eqn:Hcancel; [done|].
  destruct (key =? ord "K"); [by intros ?%swap_move_not_exiting|].
  destruct (key =? ord "J"); [by intros ?%swap_move_not_exiting|].
  destruct (key_in key [KEY_ENTER; 10; 13; ord " "]); [by intros ?%select_not_exiting|].
  destruct (key_in key [3; ord "q"; ord "Q"]) eqn:Hquit.
  - intros [= <- <-]. split; [|done].
    apply key_in_cases in Hquit.
    apply elem_of_cons in Hquit as [-> | Hquit]; [discriminate Hcancel|].
    apply elem_of_cons in Hquit as [-> | Hquit]; [by left|].
    apply elem_of_cons in Hquit as [-> | Hquit]; [by right|].
    by apply elem_of_nil in Hquit.
  - destruct (key_in key [ord "x"; ord "X"]).
    { by destruct (math_ceil_log10 _). }
    destruct (key =? ord "S"); [done|].
    destruct (key =? ord "r"); [|done].
    by destruct (PyList.getitem _ _).
Qed.

Section Transitions.
Context {FS : Type} `{!FileSystem FS} `{!Regex}.

Lemma resume_rename_item (w : World FS) (s : State) (old_name : string)
    (value : option string) :
  ∃ w' s', resume (RenameItem old_name) value s w = (w', Running s').
Proof.
  unfold resume. destruct value as [new_name|]; [|by eauto].
  destruct (String.eqb new_name old_name); [by eauto|].
  destruct (rename old_name new_name w); [|by eauto].
  destruct (PyList.setitem _ _ _); by eauto.
Qed.

(** C10 (amended): from a valid cursor the keys [x]/[X], [S] and [r] open
    a prompt.  When the prompt of [r] resolves, confirmed or cancelled, the
    session is [Running] again, and so it is after a confirmed strip
    pattern that is valid and whose renames succeed.  When the prompt of
    [x]/[X] resolves the session is [Exiting], with the confirmed pattern,
    or with none if the prompt was cancelled.  Without a prompt, [Running]
    goes to [Exiting] on [q] and [Q] only, with no pattern. *)
Theorem session_transitions (w : World FS) (s : State) :
  valid s →
  (∀ key, key = ord "x" ∨ key = ord "X" →
     step key (w, Running s)
     = (w, PromptActive RenamePrefix (set_message "" s)
             (prompt_start (prefix_pattern (ceil_log10 (length (files s)))))))
  ∧ step (ord "S") (w, Running s)
    = (w, PromptActive StripPattern (set_message "" s) (prompt_start "^"))
  ∧ (∃ old_name,
       files s !! Z.to_nat (current_idx s) = Some old_name
       ∧ step (ord "r") (w, Running s)
         = (w, PromptActive (RenameItem old_name) (set_message "" s)
                 (prompt_start old_name)))
  ∧ (∀ key e value old_name, prompt_key key e = Returned value →
       ∃ w' s', step key (w, PromptActive (RenameItem old_name) s e)
                = (w', Running s'))
  ∧ (∀ key e pattern names d, prompt_key key e = Returned (Some pattern) →
       Forall2 (fun v v' => re_sub pattern "" v = Ok v') (files s) names →
       rename_all (changed (files s) names) (fs w) = Ok d →
       ∃ w' s', step key (w, PromptActive StripPattern s e) = (w', Running s'))
  ∧ (∀ key e value, prompt_key key e = Returned value →
       step key (w, PromptActive RenamePrefix s e) = (w, Exiting s value))
  ∧ (∀ key s' pattern, step key (w, Running s) = (w, Exiting s' pattern) →
       (key = ord "q" ∨ key = ord "Q") ∧ pattern = None)
  ∧ (∀ key, key = ord "q" ∨ key = ord "Q" →
       step key (w, Running s) = (w, Exiting (set_message "" s) None)).
Proof.
  intros Hv.
  assert (length (files s) ≠ 0)%nat as Hne.
  { unfold valid, len in Hv. lia. }
  split.
  { intros key Hkey. simpl.
    assert (main_key key s
            = match math_ceil_log10 (length (files s)) with
              | Raise x => Crashed x
              | Ok width => PromptActive RenamePrefix (set_message "" s)
                              (prompt_start (prefix_pattern width))
              end) as -> by (by destruct Hkey as [-> | ->]).
    unfold math_ceil_log10. apply Nat.eqb_neq in Hne. by rewrite Hne. }
  split; [reflexivity|].
  split.
  { destruct (lookup_in_range (files s) (current_idx s) Hv) as [old_name Hold].
    exists old_name. split; [done|]. simpl. unfold main_key. simpl.
    rewrite (getitem_in_range _ _ old_name); [done | apply Hv | done]. }
  split.
  { intros key e value old_name Hret. unfold step. rewrite Hret.
    apply resume_rename_item. }
  split.
  { intros key e pattern names d Hret Hsub Hren. unfold step. rewrite Hret.
    rewrite (resume_strip pattern s w names d Hsub Hren). by eauto. }
  split.
  { intros key e value Hret. unfold step. by rewrite Hret. }
  split.
  { intros key s' pattern Hstep. simpl in Hstep.
    injection Hstep as Hstep. apply main_key_exiting in Hstep. tauto. }
  intros key [-> | ->]; reflexivity.
Qed.
End Transitions.

Lemma session_transitions_witness :
  (∃ w' s', step 10 (Disk.world ["banana"],
                     PromptActive StripPattern (start ["banana"])
                       (mkEdit (list_ascii_of_string "a") 1))
            = (w', Running s'))
  ∧ step 27 (Disk.world ["banana"],
             PromptActive RenamePrefix (start ["banana"]) (prompt_start "%00d"))
    = (Disk.world ["banana"], Exiting (start ["banana"]) None).
Proof.
  destruct (session_transitions (Disk.world ["banana"]) (start ["banana"]))
    as (_ & _ & _ & _ & Hstrip & Hprefix & _).
  - unfold valid, len. simpl. lia.
  - split.
    + apply (Hstrip 10 (mkEdit (list_ascii_of_string "a") 1) "a" ["bnn"] ["bnn"]).
      * reflexivity.
      * repeat constructor.
      * reflexivity.
    + apply Hprefix. reflexivity.
Defined.

(** C10 (counterexample): the prompt opened by [x] is cancelled with Escape,
    or confirmed with Enter; either way the session is [Exiting], not
    [Running]. *)
Lemma bulk_enumerate_prompt_exits :
  run [ord "x"] (Disk.world ["a"], Running (start ["a"]))
  = (Disk.world ["a"], PromptActive RenamePrefix (start ["a"]) (prompt_start "%00d"))
  ∧ run [ord "x"; 27] (Disk.world ["a"], Running (start ["a"]))
    = (Disk.world ["a"], Exiting (start ["a"]) None)
  ∧ run [ord "x"; 10] (Disk.world ["a"], Running (start ["a"]))
    = (Disk.world ["a"], Exiting (start ["a"]) (Some "%00d"))
  ∧ ¬ ∃ s', run [ord "x"; 27] (Disk.world ["a"], Running (start ["a"]))
            = (Disk.world ["a"], Running s').
Proof.
  split; [reflexivity|]. split; [reflexivity|]. split; [reflexivity|].
  intros [s' H]. discriminate H.
Qed.

(** Cancelling the strip prompt hands [None] to [re.sub]: a [TypeError]
    ends the program. *)
Lemma strip_prompt_cancelled :
  program ["a"] [ord "S"; 27] (Disk.world ["a"])
  = (Disk.world ["a"], Traceback TypeError).
Proof. reflexivity. Qed.

(** *** The number of items is stable *)

Lemma setitem_length {A : Type} (l l' : list A) (i : Z) (v : A) :
  PyList.setitem l i v = Ok l' → length l' = length l.
Proof.
  unfold PyList.setitem. destruct (PyList.index l i) as [k|]; simpl; [|done].
  intros [= <-]. apply length_insert.
Qed.

Lemma pop_length {A : Type} (l l' : list A) (i : Z) (x : A) :
  PyList.pop l i = Ok (x, l') → S (length l') = length l.
Proof.
  unfold PyList.pop. destruct (PyList.index l i) as [k|]; simpl; [|done].
  destruct (l !! k) as [y|] eqn:Hk; [|done]. intros [= _ <-].
  rewrite length_delete by eauto. apply lookup_lt_Some in Hk. lia.
Qed.

Lemma swap_items_length (l l' : list string) (i j : Z) :
  swap_items l i j = Ok l' → length l' = length l.
Proof.
  unfold swap_items.
  destruct (PyList.getitem l j) as [a|]; simpl; [|done].
  destruct (PyList.getitem l i) as [b|]; simpl; [|done].
  destruct (PyList.setitem l i a) as [l1|] eqn:E1; simpl; [|done].
  intros E2. apply setitem_length in E1, E2. congruence.
Qed.

Lemma main_key_item_count (key : Z) (s : State) (n : nat) :
  item_count (main_key key s) = Some n → n = length (files s).
Proof.
  unfold main_key.
  repeat match goal with
         | |- context [if ?b then _ else _] => destruct b
         end; simpl; try congruence.
  - unfold swap_move. destruct (swap_items _ _ _) as [fl|] eqn:E; simpl; [|done].
    apply swap_items_length in E. simpl in E. congruence.
  - unfold swap_move. destruct (swap_items _ _ _) as [fl|] eqn:E; simpl; [|done].
    apply swap_items_length in E. simpl in E. congruence.
  - unfold select. simpl. destruct (first_selection s) as [a|]; simpl; [|congruence].
    destruct (a =? current_idx s); simpl; [congruence|].
    destruct (PyList.getitem _ _); simpl; [|done].
    destruct (PyList.pop _ _) as [[x fl]|] eqn:E; simpl; [|done].
    apply pop_length in E. unfold PyList.insert. rewrite length_inserted. congruence.
  - destruct (math_ceil_log10 _); simpl; congruence.
  - destruct (PyList.getitem _ _); simpl; congruence.
Qed.

Section ItemCount.
Context {FS : Type} `{!FileSystem FS} `{!Regex}.

Lemma strip_loop_length pattern fuel i fl count (w w' : World FS) fl' count' :
  strip_loop pattern fuel i fl count w = (w', Ok (fl', count')) →
  length fl' = length fl.
Proof.
  revert i fl count w. induction fuel as [|fuel IH]; intros i fl count w; simpl.
  - by intros [= _ <- _].
  - destruct (fl !! i) as [v|]; [|by intros [= _ <- _]].
    destruct (strip_name pattern v) as [new_name|]; [|done].
    destruct (String.eqb new_name v); [apply IH|].
    destruct (rename v new_name w) as [w1|]; [|done].
    intros E. apply IH in E. by rewrite length_insert in E.
Qed.

Lemma resume_item_count p value s (w : World FS) (n : nat) :
  item_count (resume p value s w).2 = Some n → n = length (files s).
Proof.
  unfold resume. destruct p as [| |old_name].
  - simpl. congruence.
  - destruct (strip_loop _ _ _ _ _ _) as [w' [[fl count]|]] eqn:E; simpl; [|done].
    apply strip_loop_length in E. congruence.
  - destruct value as [new_name|]; simpl; [|congruence].
    destruct (String.eqb new_name old_name); simpl; [congruence|].
    destruct (rename old_name new_name w); simpl; [|congruence].
    destruct (PyList.setitem _ _ _) as [fl|] eqn:E; simpl; [|congruence].
    apply setitem_length in E. congruence.
Qed.

Lemma step_item_count key (w : World FS) (c : Session) (n m : nat) :
  item_count c = Some n → item_count (step key (w, c)).2 = Some m → m = n.
Proof.
  destruct c as [s|p s e|s pattern|x]; simpl; try congruence.
  - intros [= <-]. apply main_key_item_count.
  - intros [= <-]. destruct (prompt_key key e); simpl; try congruence.
    apply resume_item_count.
Qed.

Lemma crashed_stays keys (w : World FS) (x : exn) :
  run keys (w, Crashed x) = (w, Crashed x).
Proof. induction keys as [|key keys IH]; [done | by rewrite run_cons]. Qed.

(** The list of a session has the number of items it started with. *)
Lemma run_item_count keys (w : World FS) (c : Session) (n m : nat) :
  item_count c = Some n → item_count (run keys (w, c)).2 = Some m → m = n.
Proof.
  revert w c. induction keys as [|key keys IH]; intros w c Hn.
  - simpl. congruence.
  - rewrite run_cons. destruct (step key (w, c)) as [w1 c1] eqn:E.
    destruct (item_count c1) as [n1|] eqn:E1.
    + assert (n1 = n) as ->.
      { apply (step_item_count key w c); [done|]. by rewrite E. }
      by apply IH.
    + destruct c1; try discriminate. by rewrite crashed_stays.
Qed.
End ItemCount.

(** *** The cursor stays on an item *)

Lemma item_count_state (c : Session) (s : State) :
  session_state c = Some s → item_count c = Some (length (files s)).
Proof. destruct c; simpl; congruence. Qed.

Lemma valid_same_rows (s s' : State) :
  valid s → current_idx s' = current_idx s →
  length (files s') = length (files s) → valid s'.
Proof. unfold valid, len. intros Hv -> ->. done. Qed.

Lemma main_key_valid (key : Z) (s s' : State) :
  valid s → session_state (main_key key s) = Some s' → valid s'.
Proof.
  intros Hv Hs'.
  pose proof (main_key_item_count key s _ (item_count_state _ _ Hs')) as Hlen.
  assert (valid (set_message "" s)) as Hv0 by done.
  unfold valid, len. rewrite Hlen. fold (len (files s)).
  revert Hs'. unfold main_key.
  repeat match goal with
         | |- context [if ?b then _ else _] => destruct b
         end; simpl; try (intros [= <-]; simpl; apply Hv).
  - intros [= <-]. simpl. apply (moved_valid (-1) _ Hv0).
  - intros [= <-]. simpl. apply (moved_valid 1 _ Hv0).
  - unfold swap_move. destruct (swap_items _ _ _); simpl; [|done].
    intros [= <-]. simpl. apply (moved_valid (-1) _ Hv0).
  - unfold swap_move. destruct (swap_items _ _ _); simpl; [|done].
    intros [= <-]. simpl. apply (moved_valid 1 _ Hv0).
  - unfold select. simpl. destruct (first_selection s) as [a|]; simpl.
    + destruct (a =? current_idx s); simpl; [intros [= <-]; apply Hv|].
      destruct (PyList.getitem _ _); simpl; [|done].
      destruct (PyList.pop _ _) as [[x fl]|]; simpl; [|done].
      intros [= <-]. apply Hv.
    + intros [= <-]. apply Hv.
  - destruct (math_ceil_log10 _); simpl; [|done]. intros [= <-]. apply Hv.
  - destruct (PyList.getitem _ _); simpl; [|done]. intros [= <-]. apply Hv.
Qed.

Section ValidCursor.
Context {FS : Type} `{!FileSystem FS} `{!Regex}.

Lemma resume_valid p value (s s' : State) (w : World FS) :
  valid s → session_state (resume p value s w).2 = Some s' → valid s'.
Proof.
  intros Hv Hs'.
  pose proof (resume_item_count p value s w _ (item_count_state _ _ Hs')) as Hlen.
  apply (valid_same_rows s); [done| |done].
  revert Hs'. clear Hlen. unfold resume. destruct p as [| |old_name].
  - simpl. by intros [= <-].
  - destruct (strip_loop _ _ _ _ _ _) as [w' [[fl count]|]]; simpl; [|done].
    by intros [= <-].
  - destruct value as [new_name|]; simpl; [|by intros [= <-]].
    destruct (String.eqb new_name old_name); simpl; [by intros [= <-]|].
    destruct (rename old_name new_name w); simpl; [|by intros [= <-]].
    destruct (PyList.setitem _ _ _); simpl; by intros [= <-].
Qed.

Lemma step_valid key (w : World FS) (c : Session) (s s' : State) :
  session_state c = Some s → valid s →
  session_state (step key (w, c)).2 = Some s' → valid s'.
Proof.
  destruct c as [s0|p s0 e|s0 pattern|x]; simpl; try done.
  - intros [= ->]. apply main_key_valid.
  - intros [= ->] Hv. destruct (prompt_key key e); simpl; try done.
    + by intros [= <-].
    + by apply resume_valid.
  - by intros [= ->] Hv [= <-].
Qed.

(** In every state the session reaches from a non-empty list, the cursor is
    on an item. *)
Lemma run_valid keys (w w' : World FS) (args : list string) (s : State) :
  args ≠ [] →
  run keys (w, Running (start args)) = (w', Running s) → valid s.
Proof.
  intros Hargs.
  assert (∀ c s0, session_state c = Some s0 → valid s0 →
            ∀ w, run keys (w, c) = (w', Running s) → valid s) as Hgen.
  { induction keys as [|key keys IH]; intros c s0 Hc Hv0 w1 Hrun.
    - simpl in Hrun. injection Hrun as _ ->. simpl in Hc. by injection Hc as <-.
    - rewrite run_cons in Hrun.
      destruct (step key (w1, c)) as [w2 c2] eqn:E.
      destruct (session_state c2) as [s2|] eqn:E2.
      + apply (IH c2 s2 E2) with (w := w2); [|done].
        apply (step_valid key w1 c s0 s2); [done | done | by rewrite E].
      + destruct c2; try discriminate. by rewrite crashed_stays in Hrun. }
  apply (Hgen (Running (start args)) (start args)); [done|].
  unfold valid, start, len. simpl. destruct args; simpl; [done | lia].
Qed.
End ValidCursor.

(** *** The default pattern of the final enumeration *)

Lemma ceil_log10_from_spec (fuel k n : nat) :
  (∀ j, j < k → 10 ^ j < n)%nat →
  (n ≤ 10 ^ (k + fuel))%nat →
  (n ≤ 10 ^ ceil_log10_from fuel k n
   ∧ ∀ j, j < ceil_log10_from fuel k n → 10 ^ j < n)%nat.
Proof.
  revert k. induction fuel as [|fuel IH]; intros k Hlow Hhigh; simpl.
  - rewrite Nat.add_0_r in Hhigh. done.
  - destruct (Nat.leb_spec n (10 ^ k)) as [Hle|Hgt]; [done|].
    apply IH.
    + intros j Hj. destruct (decide (j = k)) as [->|]; [done|]. apply Hlow. lia.
    + by rewrite Nat.add_succ_comm.
Qed.

(** [ceil_log10 n] is the least [k] with [n <= 10 ^ k]. *)
Lemma ceil_log10_least (n : nat) :
  (n ≤ 10 ^ ceil_log10 n ∧ ∀ k, n ≤ 10 ^ k → ceil_log10 n ≤ k)%nat.
Proof.
  destruct (ceil_log10_from_spec n 0 n) as [Hle Hlt].
  - intros j Hj. lia.
  - simpl. pose proof (Nat.pow_gt_lin_r 10 n). lia.
  - split; [done|]. intros k Hk.
    destruct (Nat.le_gt_cases (ceil_log10 n) k) as [|Hgt]; [done|].
    specialize (Hlt k Hgt). lia.
Qed.

Lemma ceil_log10_between (n k : nat) :
  (10 ^ k < n ≤ 10 ^ S k)%nat → ceil_log10 n = S k.
Proof.
  intros [Hlow Hhigh]. destruct (ceil_log10_least n) as [Hle Hleast].
  apply Nat.le_antisymm; [by apply Hleast|].
  destruct (Nat.le_gt_cases (S k) (ceil_log10 n)) as [|Hlt]; [done|].
  assert (10 ^ ceil_log10 n ≤ 10 ^ k)%nat by (apply Nat.pow_le_mono_r; lia).
  lia.
Qed.

Lemma read_width_skip_zero_flags (s : string) :
  read_width (skip_zero_flags s) 0 = read_width s 0.
Proof.
  induction s as [|c s IH]; [done|].
  destruct c as [[] [] [] [] [] [] [] []]; try reflexivity. exact IH.
Qed.

Lemma read_width_digits (d : Decimal.uint) (acc : nat) (rest : string) :
  read_width (NilEmpty.string_of_uint d ++ String "d" rest) acc
  = (Nat.of_uint_acc d acc, String "d" rest).
Proof.
  revert acc. induction d; intros acc; simpl; [done|..];
    rewrite IHd, Nat.tail_mul_spec; do 2 f_equal; unfold digit; simpl; lia.
Qed.

Lemma str_digits (n : nat) : str n = NilEmpty.string_of_uint (Nat.to_uint n).
Proof.
  unfold str. destruct (Nat.to_uint n) eqn:E; try reflexivity.
  pose proof (Unsigned.of_to n) as Hn. rewrite E in Hn. simpl in Hn. by subst n.
Qed.

Lemma read_width_str (n : nat) (rest : string) :
  read_width (str n ++ String "d" rest) 0 = (n, String "d" rest).
Proof.
  rewrite str_digits, read_width_digits.
  change (Nat.of_uint_acc (Nat.to_uint n) 0) with (Nat.of_uint (Nat.to_uint n)).
  by rewrite Unsigned.of_to.
Qed.

Lemma string_app_nil_r (s : string) : s ++ "" = s.
Proof. induction s as [|c s IH]; simpl; [done | by rewrite IH]. Qed.

(** The default pattern pads the number with zeros to [width] characters. *)
Lemma format_prefix_pattern (width n : nat) :
  format (prefix_pattern width) n = Ok (pad "0" width (str n)).
Proof.
  unfold prefix_pattern. simpl. unfold convert.
  change (skip_zero_flags (String "0" (str width ++ "d")))
    with (skip_zero_flags (str width ++ "d")).
  rewrite read_width_skip_zero_flags, read_width_str. simpl.
  by rewrite string_app_nil_r.
Qed.

Lemma strip_between (a z : ascii) (m : list ascii) :
  isspace a = false → isspace z = false →
  strip (a :: m ++ [z])%list = (a :: m ++ [z])%list.
Proof.
  intros Ha Hz. unfold strip. simpl lstrip. rewrite Ha.
  replace (rev (a :: m ++ [z])%list) with (z :: rev m ++ [a])%list.
  - simpl lstrip. rewrite Hz.
    change (z :: rev m ++ [a])%list with ([z] ++ rev m ++ [a])%list.
    by rewrite !rev_app_distr, rev_involutive.
  - simpl. by rewrite rev_app_distr.
Qed.

Lemma list_ascii_of_string_app (s1 s2 : string) :
  list_ascii_of_string (s1 ++ s2)
  = (list_ascii_of_string s1 ++ list_ascii_of_string s2)%list.
Proof. induction s1 as [|c s1 IH]; simpl; [done | by rewrite IH]. Qed.

(** Enter on a buffer with no white space around it confirms its text. *)
Lemma confirm_unchanged (b : list ascii) (p : Z) :
  strip b = b → b ≠ [] →
  prompt_key 10 (mkEdit b p) = Returned (Some (string_of_list_ascii b)).
Proof.
  intros Hs Hne. unfold prompt_key. simpl. rewrite Hs. by destruct b.
Qed.

(** Enter on the untouched default pattern confirms it as it is. *)
Lemma confirm_prefix_pattern (width : nat) :
  prompt_key 10 (prompt_start (prefix_pattern width))
  = Returned (Some (prefix_pattern width)).
Proof.
  assert (list_ascii_of_string (prefix_pattern width)
          = ("%"%char :: ("0"%char :: list_ascii_of_string (str width)) ++ ["d"%char])%list)
    as E.
  { unfold prefix_pattern. simpl. by rewrite list_ascii_of_string_app. }
  unfold prompt_start. rewrite confirm_unchanged.
  - by rewrite string_of_list_ascii_of_string.
  - rewrite E. by apply strip_between.
  - by rewrite E.
Qed.

Section FinalEnumerate.
Context {FS : Type} `{!FileSystem FS} `{!Regex}.

Lemma enumerate_rename_from (width i : nat) (fl : list string)
    (w : World FS) (d : FS) :
  let pairs :=
    imap (fun j f => (f, pad "0" width (str (S (i + j))) ++ " " ++ f)) fl in
  rename_all pairs (fs w) = Ok d →
  enumerate_rename (prefix_pattern width) i fl w
  = (mkWorld d (renamed w ++ pairs), Ok tt).
Proof.
  revert i w. induction fl as [|f fl IH]; intros i w pairs Hren; subst pairs.
  - simpl in *. injection Hren as <-. destruct w. simpl. by rewrite app_nil_r.
  - cbn [enumerate_rename]. rewrite format_prefix_pattern.
    cbn [imap rename_all] in *. rewrite Nat.add_0_r in *. unfold rename.
    destruct (os_rename f _ (fs w)) as [d1|x]; [|done].
    change (rename_all (imap ((fun j f => (f, pad "0" width (str (S (i + j))) ++ " " ++ f)) ∘ S) fl) d1 = Ok d) in Hren.
    rewrite (imap_ext _ (fun j f => (f, pad "0" width (str (S (S i + j))) ++ " " ++ f)))
      in Hren |- *
      by (intros j y _; simpl; by rewrite Nat.add_succ_r).
    rewrite (IH (S i) (mkWorld d1 (renamed w ++ [(f, pad "0" width (str (S i)) ++ " " ++ f)])) Hren).
    simpl. by rewrite <- app_assoc.
Qed.

(** The final enumeration in general: it makes the renames of a prefix
    [made] of the list, in order, and either that prefix is the whole list
    or the rename of the next item fails and ends the loop with its
    error. *)
Lemma enumerate_rename_outcome (width i : nat) (fl : list string)
    (w : World FS) :
  let pairs :=
    imap (fun j f => (f, pad "0" width (str (S (i + j))) ++ " " ++ f)) fl in
  ∃ (made rest : list (string * string)) (w' : World FS) (r : result unit),
    enumerate_rename (prefix_pattern width) i fl w = (w', r)
    ∧ pairs = (made ++ rest)%list
    ∧ renamed w' = (renamed w ++ made)%list
    ∧ rename_all made (fs w) = Ok (fs w')
    ∧ match rest with
      | [] => r = Ok tt
      | (f, new) :: _ => ∃ x, os_rename f new (fs w') = Raise x ∧ r = Raise x
      end.
Proof.
  revert i w. induction fl as [|f fl IH]; intros i w pairs; subst pairs.
  - exists [], [], w, (Ok tt). simpl. by rewrite app_nil_r.
  - cbn [enumerate_rename]. rewrite format_prefix_pattern.
    cbn [imap]. rewrite Nat.add_0_r. unfold rename.
    destruct (os_rename f (pad "0" width (str (S i)) ++ " " ++ f) (fs w))
      as [d1|x] eqn:E.
    + destruct (IH (S i)
                  (mkWorld d1 (renamed w ++ [(f, pad "0" width (str (S i)) ++ " " ++ f)])))
        as (made & rest & w' & r & He & Hp & Hr & Ha & Hm).
      exists ((f, pad "0" width (str (S i)) ++ " " ++ f) :: made), rest, w', r.
      split; [exact He|]. split.
      { simpl. f_equal. rewrite <- Hp. apply imap_ext. intros j y _. simpl.
        by rewrite Nat.add_succ_r. }
      split; [simpl in Hr; by rewrite Hr, <- app_assoc|].
      split; [|exact Hm].
      cbn [rename_all]. rewrite E. exact Ha.
    + exists [], ((f, pad "0" width (str (S i)) ++ " " ++ f)
                 :: imap ((fun j f => (f, pad "0" width (str (S (i + j))) ++ " " ++ f)) ∘ S) fl),
        w, (Raise x).
      split; [done|]. split; [done|]. split; [by rewrite app_nil_r|].
      split; [done|]. by exists x.
Qed.

Lemma run_default_pattern (w : World FS) (s : State) :
  (1 ≤ length (files s))%nat →
  run [ord "x"; 10] (w, Running s)
  = (w, Exiting (set_message "" s)
          (Some (prefix_pattern (ceil_log10 (length (files s)))))).
Proof.
  intros HN. rewrite run_cons.
  assert (step (ord "x") (w, Running s)
          = (w, PromptActive RenamePrefix (set_message "" s)
                  (prompt_start (prefix_pattern (ceil_log10 (length (files s)))))))
    as ->.
  { unfold step, main_key. simpl. unfold math_ceil_log10.
    destruct (Nat.eqb_spec (length (files s)) 0) as [E|_]; [lia | done]. }
  rewrite run_cons. unfold step. by rewrite confirm_prefix_pattern.
Qed.
End FinalEnumerate.

Lemma imap_sources (g : nat → string → string) (fl : list string) :
  (imap (fun i f => (f, g i f)) fl).*1 = fl.
Proof.
  revert g. induction fl as [|f fl IH]; intros g; simpl; [done|].
  f_equal. apply (IH (fun i => g (S i))).
Qed.

Lemma numbered_sources (width : nat) (fl : list string) :
  (numbered width fl).*1 = fl.
Proof. apply imap_sources. Qed.

Section FinalEnumerateClaim.
Context {FS : Type} `{!FileSystem FS} `{!Regex}.

(** C1 (amended): when the session, after the keys [keys], is asked for the
    bulk enumeration and the default pattern is confirmed as it is, the
    program goes through the list in the order it has at that moment and
    renames each item to its 1-based index padded with zeros to [W]
    characters, a space and the old name.  It makes the renames of a prefix
    [made] of that list, each once and in order: when every rename
    succeeds the prefix is the whole list, every item is renamed exactly
    once and the program ends normally; otherwise the first rename that
    fails ends the program with its error, the items before it renamed and
    the others left as they were.  [W] is the least number with
    [N <= 10 ^ W], that is [ceil(log10 N)], for the [N] items given to the
    program: it is [k + 1] when [10 ^ k < N <= 10 ^ (k + 1)]. *)
Theorem final_enumerate_default (w0 w : World FS) (args : list string)
    (keys : list Z) (s : State) :
  let N := length args in
  let W := ceil_log10 N in
  args ≠ [] →
  run keys (w0, Running (start args)) = (w, Running s) →
  length (files s) = N
  ∧ (N ≤ 10 ^ W ∧ ∀ k, N ≤ 10 ^ k → W ≤ k)%nat
  ∧ (∀ k, 10 ^ k < N ≤ 10 ^ S k → W = S k)%nat
  ∧ run [ord "x"; 10] (w, Running s)
    = (w, Exiting (set_message "" s) (Some (prefix_pattern W)))
  ∧ (∀ n, format (prefix_pattern W) n = Ok (pad "0" W (str n)))
  ∧ (numbered W (files s)).*1 = files s
  ∧ (∃ (made rest : list (string * string)) (w' : World FS) (e : Exit),
       program args (keys ++ [ord "x"; 10]) w0 = (w', e)
       ∧ numbered W (files s) = (made ++ rest)%list
       ∧ renamed w' = (renamed w ++ made)%list
       ∧ rename_all made (fs w) = Ok (fs w')
       ∧ match rest with
         | [] => e = Done
         | (f, new) :: _ =>
             ∃ x, os_rename f new (fs w') = Raise x ∧ e = Traceback x
         end)
  ∧ (∀ d, rename_all (numbered W (files s)) (fs w) = Ok d →
       program args (keys ++ [ord "x"; 10]) w0
       = (mkWorld d (renamed w ++ numbered W (files s)), Done)).
Proof.
  intros N W Hargs Hrun.
  assert (length (files s) = N) as HN.
  { apply (run_item_count keys w0 (Running (start args))); [done|].
    by rewrite Hrun. }
  assert (1 ≤ length (files s))%nat as Hpos.
  { rewrite HN. subst N. destruct args; simpl; [done | lia]. }
  split; [done|].
  split; [apply ceil_log10_least|].
  split; [intros k; apply ceil_log10_between|].
  assert (run [ord "x"; 10] (w, Running s)
          = (w, Exiting (set_message "" s) (Some (prefix_pattern W)))) as Hx.
  { rewrite run_default_pattern by done. by rewrite HN. }
  split; [done|].
  split; [intros n; apply format_prefix_pattern|].
  split; [apply numbered_sources|].
  assert (program args (keys ++ [ord "x"; 10]) w0
          = match enumerate_rename (prefix_pattern W) 0 (files s) w with
            | (w'', Ok _) => (w'', Done)
            | (w'', Raise x) => (w'', Traceback x)
            end) as Hprog.
  { unfold program. destruct args as [|a args]; [done|].
    by rewrite run_app, Hrun, Hx. }
  split.
  - destruct (enumerate_rename_outcome W 0 (files s) w)
      as (made & rest & w' & r & He & Hp & Hr & Ha & Hm).
    rewrite He in Hprog.
    exists made, rest, w', (match r with Ok _ => Done | Raise x => Traceback x end).
    split; [by destruct r|]. split; [exact Hp|]. split; [exact Hr|].
    split; [exact Ha|].
    destruct rest as [|[f new] rest].
    + by rewrite Hm.
    + destruct Hm as (x & Hf & ->). by exists x.
  - intros d Hren. rewrite Hprog.
    by rewrite (enumerate_rename_from W 0 (files s) w d).
Qed.
End FinalEnumerateClaim.

Lemma final_enumerate_default_witness :
  program ["c"; "a"; "b"] ([ord "K"] ++ [ord "x"; 10]) (Disk.world ["a"; "b"; "c"])
  = (mkWorld ["3 c"; "2 a"; "1 b"] [("b", "1 b"); ("a", "2 a"); ("c", "3 c")], Done).
Proof.
  pose proof (final_enumerate_default (Disk.world ["a"; "b"; "c"])
                (Disk.world ["a"; "b"; "c"]) ["c"; "a"; "b"] [ord "K"]
                (mkState ["b"; "a"; "c"] 2 None "")) as H.
  cbv zeta in H.
  destruct H as (_ & _ & _ & _ & _ & _ & _ & Hall).
  - discriminate.
  - reflexivity.
  - apply (Hall ["3 c"; "2 a"; "1 b"]). reflexivity.
Defined.

(** C1 (counterexample): with 10 items [ceil(log10 10)] is 1, the default
    pattern is [%01d], and the items are numbered 1 to 10 without padding:
    the first becomes [1 a], not [01 a]. *)
Lemma ten_items_get_one_digit :
  let ten := ["a"; "b"; "c"; "d"; "e"; "f"; "g"; "h"; "i"; "j"] in
  ceil_log10 (length ten) = 1%nat
  ∧ run [ord "x"; 10] (Disk.world ten, Running (start ten))
    = (Disk.world ten, Exiting (start ten) (Some "%01d"))
  ∧ (program ten [ord "x"; 10] (Disk.world ten)).1.(renamed)
    = [("a", "1 a"); ("b", "2 b"); ("c", "3 c"); ("d", "4 d"); ("e", "5 e");
       ("f", "6 f"); ("g", "7 g"); ("h", "8 h"); ("i", "9 i"); ("j", "10 j")]
  ∧ format "%01d" 1 ≠ Ok "01".
Proof. repeat split. discriminate. Qed.

(** ** Further properties *)

(** *** Invariants of the session *)






Lemma main_key_anchor_valid (key : Z) (s s' : State) :
  well_formed s → session_state (main_key key s) = Some s' → anchor_valid s'.
Proof.
  intros [Hv Ha] Hs'.
  pose proof (main_key_item_count key s _ (item_count_state _ _ Hs')) as Hlen.
  unfold anchor_valid, len. rewrite Hlen. fold (len (files s)).
  assert (0 < len (files s)) as Hpos by (unfold valid in Hv; lia).
  pose proof (moved_valid (-1) (set_message "" s) Hv) as [_ Hup].
  pose proof (moved_valid 1 (set_message "" s) Hv) as [_ Hdown].
  revert Hs'. unfold main_key.
  repeat match goal with
         | |- context [if ?b then _ else _] => destruct b
         end; simpl; try (intros [= <-]; simpl; (done || apply Ha)).
  - unfold swap_move. destruct (swap_items _ _ _) as [fl|] eqn:E; simpl; [|done].
    apply swap_items_length in E. simpl in E.
    intros [= <-]. simpl. destruct (first_selection s) as [a0|] eqn:Ea; [|done].
    specialize (Ha a0 Ea).
    destruct (_ =? a0); intros a [= <-]; [|done].
    unfold len. rewrite E. fold (len (files s)). lia.
  - unfold swap_move. destruct (swap_items _ _ _) as [fl|] eqn:E; simpl; [|done].
    intros [= <-]. simpl. destruct (first_selection s) as [a0|] eqn:Ea; [|done].
    specialize (Ha a0 Ea).
    destruct (_ =? a0); intros a [= <-]; [lia | done].
  - unfold select. simpl. destruct (first_selection s) as [a0|] eqn:Ea; simpl.
    + destruct (a0 =? current_idx s); simpl; [by intros [= <-]|].
      destruct (PyList.getitem _ _); simpl; [|done].
      destruct (PyList.pop _ _) as [[x fl]|]; simpl; [|done].
      by intros [= <-].
    + intros [= <-] a [= <-]. apply Hv.
  - destruct (math_ceil_log10 _); simpl; [|done]. intros [= <-]. apply Ha.
  - destruct (PyList.getitem _ _); simpl; [|done]. intros [= <-]. apply Ha.
Qed.


Section Invariants.
Context {FS : Type} `{!FileSystem FS} `{!Regex}.

Lemma resume_anchor p value (s s' : State) (w : World FS) :
  session_state (resume p value s w).2 = Some s' →
  first_selection s' = first_selection s.
Proof.
  unfold resume. destruct p as [| |old_name].
  - simpl. by intros [= <-].
  - destruct (strip_loop _ _ _ _ _ _) as [w' [[fl count]|]]; simpl; [|done].
    by intros [= <-].
  - destruct value as [new_name|]; simpl; [|by intros [= <-]].
    destruct (String.eqb new_name old_name); simpl; [by intros [= <-]|].
    destruct (rename old_name new_name w); simpl; [|by intros [= <-]].
    destruct (PyList.setitem _ _ _); simpl; by intros [= <-].
Qed.

Lemma step_well_formed key (w : World FS) (c : Session) (s s' : State) :
  session_state c = Some s → well_formed s →
  session_state (step key (w, c)).2 = Some s' → well_formed s'.
Proof.
  intros Hc Hwf Hs'. split; [exact (step_valid key w c s s' Hc (proj1 Hwf) Hs')|].
  destruct c as [s0|p s0 e|s0 pattern|x]; simpl in *; try done.
  - injection Hc as ->. by apply (main_key_anchor_valid key s).
  - injection Hc as ->. destruct (prompt_key key e); simpl in *; try done.
    + injection Hs' as <-. apply Hwf.
    + pose proof (resume_anchor _ _ _ _ _ Hs') as Ea.
      pose proof (resume_item_count _ _ _ _ _ (item_count_state _ _ Hs')) as El.
      intros a Hsel. unfold len. rewrite El. apply Hwf. congruence.
  - injection Hc as ->. injection Hs' as <-. apply Hwf.
Qed.

(** A property of the state that every key keeps holds all along a
    session. *)
Lemma run_invariant (P : State → Prop) :
  (∀ key (w : World FS) c s s',
     session_state c = Some s → P s →
     session_state (step key (w, c)).2 = Some s' → P s') →
  ∀ keys (w w' : World FS) c c' s s',
    session_state c = Some s → P s →
    run keys (w, c) = (w', c') → session_state c' = Some s' → P s'.
Proof.
  intros Hstep keys. induction keys as [|key keys IH]; intros w w' c c' s s' Hc HP Hrun Hc'.
  - simpl in Hrun. injection Hrun as _ <-. congruence.
  - rewrite run_cons in Hrun. destruct (step key (w, c)) as [w1 c1] eqn:E.
    destruct (session_state c1) as [s1|] eqn:E1.
    + apply (IH w1 w' c1 c' s1 s' E1); [|done|done].
      apply (Hstep key w c s s1 Hc HP). by rewrite E.
    + destruct c1; try discriminate. rewrite crashed_stays in Hrun.
      injection Hrun as _ <-. discriminate.
Qed.

(** X1: as long as the session has not raised, its list has as many items
    as the program was given, whatever keys were typed. *)
Theorem item_count_is_stable (keys : list Z) (w w' : World FS)
    (args : list string) (c : Session) (s : State) :
  run keys (w, Running (start args)) = (w', c) →
  session_state c = Some s →
  length (files s) = length args.
Proof.
  intros Hrun Hc.
  assert (∀ key (w : World FS) c s s',
            session_state c = Some s → length (files s) = length args →
            session_state (step key (w, c)).2 = Some s' →
            length (files s') = length args) as Hstep.
  { intros key w1 c1 s1 s2 Hc1 H1 Hc2. rewrite <- H1.
    apply (step_item_count key w1 c1); by apply item_count_state. }
  by apply (run_invariant (fun s => length (files s) = length args) Hstep
              keys w w' (Running (start args)) c (start args) s).
Qed.

(** X2: in every state a session reaches from a non-empty list, the cursor
    is on a row of the list, and so is the anchor when it is set. *)
Theorem cursor_and_anchor_stay_on_rows (keys : list Z) (w w' : World FS)
    (args : list string) (c : Session) (s : State) :
  args ≠ [] →
  run keys (w, Running (start args)) = (w', c) →
  session_state c = Some s →
  0 <= current_idx s < len (files s)
  ∧ ∀ a, first_selection s = Some a → 0 <= a < len (files s).
Proof.
  intros Hargs Hrun Hc.
  apply (run_invariant well_formed step_well_formed keys w w'
           (Running (start args)) c (start args) s); try done.
  split; [|done]. unfold valid, start, len. simpl. destruct args; simpl; [done | lia].
Qed.

End Invariants.

Lemma item_count_is_stable_witness :
  length ["b"; "a"; "cx"] = length ["a"; "b"; "c"].
Proof.
  apply (item_count_is_stable
           [ord " "; ord "K"; ord " "; ord "r"; ord "x"; 10]
           (Disk.world ["a"; "b"; "c"]) (mkWorld ["cx"; "a"; "b"] [("c", "cx")])
           ["a"; "b"; "c"]
           (Running (mkState ["b"; "a"; "cx"] 2 None "Renamed 'c' to 'cx'"))
           (mkState ["b"; "a"; "cx"] 2 None "Renamed 'c' to 'cx'")).
  - reflexivity.
  - reflexivity.
Defined.

Lemma cursor_and_anchor_stay_on_rows_witness :
  0 <= 2 < len ["c"; "b"; "a"]
  ∧ ∀ a, Some 1 = Some a → 0 <= a < len ["c"; "b"; "a"].
Proof.
  apply (cursor_and_anchor_stay_on_rows [ord "j"; ord " "; ord "k"; ord "K"]
           (Disk.world []) (Disk.world []) ["a"; "b"; "c"]
           (Running (mkState ["c"; "b"; "a"] 2 (Some 1) ""))
           (mkState ["c"; "b"; "a"] 2 (Some 1) "")).
  - discriminate.
  - reflexivity.
  - reflexivity.
Defined.


(** *** Moves and swaps compose *)

Lemma main_key_move (key : Z) (s : State) :
  is_move_key key → 1 <= len (files s) →
  main_key key s
  = Running (mkState (files s)
               ((current_idx s + direction key) `mod` len (files s))
               (first_selection s) "").
Proof.
  intros Hkey HN.
  destruct Hkey as [-> | [-> | [-> | ->]]]; unfold main_key; simpl;
    unfold set_current_idx; rewrite moved_nonempty by done; done.
Qed.

Section Travel.
Context {FS : Type} `{!FileSystem FS} `{!Regex}.

(** X6: from a cursor on a row of [N] items, any sequence of cursor moves
    leaves the list and the anchor as they were and puts the cursor on row
    [(cursor + downs - ups) mod N]; a sequence with as many ups as downs, or
    [N] moves the same way, brings it back. *)
Theorem cursor_moves_add_up (w : World FS) (s : State) (keys : list Z) :
  valid s →
  Forall is_move_key keys →
  ∃ s', run keys (w, Running s) = (w, Running s')
    ∧ files s' = files s
    ∧ first_selection s' = first_selection s
    ∧ current_idx s' = (current_idx s + travel keys) `mod` len (files s)
    ∧ (travel keys `mod` len (files s) = 0 → current_idx s' = current_idx s).
Proof.
  intros Hv Hkeys.
  assert (∃ s', run keys (w, Running s) = (w, Running s')
            ∧ files s' = files s
            ∧ first_selection s' = first_selection s
            ∧ current_idx s' = (current_idx s + travel keys) `mod` len (files s))
    as (s' & Hrun & Hf & Ha & Hc).
  { revert s Hv. induction Hkeys as [|key keys Hkey _ IH]; intros s Hv.
    - exists s. simpl. rewrite Z.add_0_r, Z.mod_small by apply Hv. done.
    - unfold valid in Hv.
      pose proof (main_key_move key s Hkey ltac:(lia)) as E.
      set (s1 := mkState (files s)
                   ((current_idx s + direction key) `mod` len (files s))
                   (first_selection s) "") in *.
      destruct (IH s1) as (s' & Hrun & Hf & Ha & Hc).
      { unfold valid, s1. simpl. apply Z.mod_pos_bound. lia. }
      exists s'. rewrite run_cons. simpl step. rewrite E, Hrun.
      split; [done|]. split; [done|]. split; [done|].
      rewrite Hc. simpl. rewrite Z.add_mod_idemp_l by lia. f_equal. lia. }
  exists s'. split; [done|]. split; [done|]. split; [done|]. split; [done|].
  intros Hback. rewrite Hc. unfold valid in Hv.
  rewrite <- Z.add_mod_idemp_r, Hback, Z.add_0_r by lia. by apply Z.mod_small.
Qed.
End Travel.

Lemma cursor_moves_add_up_witness :
  ∃ s', run [ord "j"; KEY_DOWN; ord "j"; ord "k"; KEY_UP; ord "k"]
          (Disk.world [], Running (mkState ["a"; "b"; "c"] 1 (Some 2) "m"))
        = (Disk.world [], Running s')
    ∧ files s' = ["a"; "b"; "c"]
    ∧ first_selection s' = Some 2
    ∧ current_idx s'
      = (1 + travel [ord "j"; KEY_DOWN; ord "j"; ord "k"; KEY_UP; ord "k"])
          `mod` len ["a"; "b"; "c"]
    ∧ (travel [ord "j"; KEY_DOWN; ord "j"; ord "k"; KEY_UP; ord "k"]
         `mod` len ["a"; "b"; "c"] = 0 → current_idx s' = 1).
Proof.
  apply (cursor_moves_add_up (Disk.world []) (mkState ["a"; "b"; "c"] 1 (Some 2) "m")).
  - unfold valid, len. simpl. lia.
  - repeat constructor; unfold is_move_key; tauto.
Defined.

(** X5: a swap move followed by the swap move the other way puts the list
    and the cursor back as they were, also across the ends of the list. *)
Theorem swap_there_and_back (key key' : Z) (s : State) :
  valid s →
  is_swap_key key → is_swap_key key' → key ≠ key' →
  ∃ s1 s2, main_key key s = Running s1
    ∧ main_key key' s1 = Running s2
    ∧ files s2 = files s
    ∧ current_idx s2 = current_idx s.
Proof.
  intros Hv Hkey Hkey' Hne.
  destruct (swap_step key s Hv Hkey) as (s1 & E1 & Hv1 & Hc1 & Hp1 & Hn1 & Ho1 & Hr1).
  destruct (swap_step key' s1 Hv1 Hkey') as (s2 & E2 & Hv2 & Hc2 & Hp2 & Hn2 & Ho2 & Hr2).
  exists s1, s2. split; [done|]. split; [done|].
  assert (len (files s1) = len (files s)) as Hl1.
  { unfold len. by rewrite Hp1. }
  assert (direction key + direction key' = 0) as Hd.
  { destruct Hkey as [-> | ->], Hkey' as [-> | ->]; done. }
  assert (current_idx s2 = current_idx s) as Hback.
  { rewrite Hc2, Hc1, Hl1. unfold valid in Hv.
    rewrite Z.add_mod_idemp_l by lia.
    replace (current_idx s + direction key + direction key') with (current_idx s) by lia.
    by apply Z.mod_small. }
  split; [|done]. rewrite Hback in *.
  unfold valid in Hv, Hv1.
  apply list_eq. intros j.
  destruct (decide (Z.of_nat j = current_idx s)) as [Ej|Ej].
  - replace j with (Z.to_nat (current_idx s)) by lia. by rewrite Hn2, Hn1.
  - destruct (decide (Z.of_nat j = current_idx s1)) as [Ej1|Ej1].
    + replace j with (Z.to_nat (current_idx s1)) by lia. by rewrite Ho2, Ho1.
    + rewrite Hr2 by done. by apply Hr1.
Qed.

Lemma swap_there_and_back_witness :
  ∃ s1 s2, main_key (ord "K") (mkState ["a"; "b"; "c"] 0 (Some 0) "") = Running s1
    ∧ main_key (ord "J") s1 = Running s2
    ∧ files s2 = ["a"; "b"; "c"]
    ∧ current_idx s2 = 0.
Proof.
  apply (swap_there_and_back (ord "K") (ord "J") (mkState ["a"; "b"; "c"] 0 (Some 0) "")).
  - unfold valid, len. simpl. lia.
  - by left.
  - by right.
  - discriminate.
Defined.

(** *** Relocation undone *)

Lemma insert_deleted {A : Type} (l : list A) (k : nat) (x : A) :
  l !! k = Some x → (take k (delete k l) ++ x :: drop k (delete k l))%list = l.
Proof.
  revert l. induction k as [|k IH]; intros [|a l] Hk; simpl in *; try done.
  - by injection Hk as ->.
  - f_equal. by apply IH.
Qed.

(** A drop with the anchor on another row than the cursor. *)
Lemma drop_relocates (key : Z) (l : list string) (A B : Z) (m : string) (x : string) :
  key_in key [KEY_ENTER; 10; 13; ord " "] = true →
  0 <= A → 0 <= B < len l → A ≠ B →
  l !! Z.to_nat A = Some x →
  main_key key (mkState l B (Some A) m)
  = Running (mkState (take (Z.to_nat B) (delete (Z.to_nat A) l)
                      ++ x :: drop (Z.to_nat B) (delete (Z.to_nat A) l))%list
               B None "").
Proof.
  intros Hkey HA HB Hne Hx. rewrite (main_key_select _ _ Hkey).
  unfold select, set_first_selection, set_files, set_message. simpl.
  destruct (Z.eqb_spec A B) as [|_]; [done|].
  pose proof (lookup_lt_Some _ _ _ Hx) as HlA.
  rewrite (getitem_in_range _ _ x) by done.
  rewrite (pop_in_range _ _ x) by done.
  rewrite insert_in_range; [done|].
  unfold len in *. rewrite length_delete by eauto. lia.
Qed.

(** X7: after an item was picked up on row [A] and dropped on row [B],
    picking it up on row [B] and dropping it on row [A] gives back the
    list as it was. *)
Theorem relocation_is_undone (key : Z) (l : list string) (A B : Z) (m m' : string) :
  key_in key [KEY_ENTER; 10; 13; ord " "] = true →
  0 <= A < len l → 0 <= B < len l → A ≠ B →
  ∃ l1, main_key key (mkState l B (Some A) m) = Running (mkState l1 B None "")
    ∧ main_key key (mkState l1 A (Some B) m') = Running (mkState l A None "").
Proof.
  intros Hkey HA HB Hne.
  destruct (lookup_in_range l A HA) as [x Hx].
  pose proof (lookup_lt_Some _ _ _ Hx) as HlA.
  set (l0 := delete (Z.to_nat A) l).
  assert (length l0 = length l - 1)%nat as Hl0.
  { unfold l0. rewrite length_delete by eauto. done. }
  assert (Z.to_nat B ≤ length l0)%nat as HB0 by (unfold len in HB; lia).
  eexists. split.
  { apply (drop_relocates key l A B m x); (done || lia). }
  fold l0.
  rewrite (drop_relocates key _ B A m' x); try (done || lia).
  - rewrite delete_inserted by done. unfold l0. by rewrite insert_deleted.
  - unfold len. rewrite length_inserted. unfold len in HA. lia.
  - by apply lookup_inserted.
Qed.

Lemma relocation_is_undone_witness :
  ∃ l1, main_key (ord " ") (mkState ["a"; "b"; "c"; "d"] 3 (Some 0) "")
        = Running (mkState l1 3 None "")
    ∧ main_key (ord " ") (mkState l1 0 (Some 3) "")
      = Running (mkState ["a"; "b"; "c"; "d"] 0 None "").
Proof.
  apply (relocation_is_undone (ord " ") ["a"; "b"; "c"; "d"] 0 3 "" "");
    (reflexivity || (unfold len; simpl; lia) || lia).
Defined.


(** *** Sessions without a prompt *)

Lemma main_key_opens_prompt (key : Z) (s s' : State) (p : Prompt) (e : EditBuffer) :
  main_key key s = PromptActive p s' e → is_trigger key.
Proof.
  unfold main_key, is_trigger.
  destruct ((key =? KEY_UP) || (key =? ord "k")); [done|].
  destruct ((key =? KEY_DOWN) || (key =? ord "j")); [done|].
  destruct (key_in key [27; 3; 7]); [done|].
  destruct (key =? ord "K").
  { unfold swap_move. by destruct (swap_items _ _ _). }
  destruct (key =? ord "J").
  { unfold swap_move. by destruct (swap_items _ _ _). }
  destruct (key_in key [KEY_ENTER; 10; 13; ord " "]).
  { unfold select. destruct (first_selection _); [|done].
    destruct (_ =? _); [done|]. destruct (PyList.getitem _ _); [|done].
    by destruct (PyList.pop _ _) as [[? ?]|]. }
  destruct (key_in key [3; ord "q"; ord "Q"]); [done|].
  destruct (key_in key [ord "x"; ord "X"]) eqn:Hx.
  { intros _. apply key_in_cases in Hx.
    apply elem_of_cons in Hx as [-> | Hx]; [tauto|].
    apply elem_of_cons in Hx as [-> | Hx]; [tauto|].
    by apply elem_of_nil in Hx. }
  destruct (Z.eqb_spec key (ord "S")) as [-> | _]; [tauto|].
  destruct (Z.eqb_spec key (ord "r")) as [-> | _]; [tauto|]. done.
Qed.

Section Quiet.
Context {FS : Type} `{!FileSystem FS} `{!Regex}.

Lemma step_quiet key (w : World FS) (c : Session) :
  quiet c → ¬ is_trigger key →
  ∃ c', step key (w, c) = (w, c') ∧ quiet c'.
Proof.
  intros Hq Hkey. destruct c as [s|p s e|s pattern|x]; simpl in *; try done.
  - exists (main_key key s). split; [done|].
    destruct (main_key key s) as [s'|p s' e|s' pattern|x] eqn:E; simpl; try done.
    + by apply main_key_opens_prompt in E.
    + by apply main_key_exiting in E as (_ & -> & _).
  - by eexists.
  - by eexists.
Qed.

(** X17: a session in which none of the keys [x], [X], [S], [r] is typed
    never opens a prompt and never renames anything: the filesystem is the
    same when the program ends or waits for the next key. *)
Theorem reordering_renames_nothing (args : list string) (keys : list Z) (w : World FS) :
  Forall (fun key => ¬ is_trigger key) keys →
  (∃ c, run keys (w, Running (start args)) = (w, c) ∧ quiet c)
  ∧ (program args keys w).1 = w.
Proof.
  intros Hkeys.
  assert (∀ c0, quiet c0 → ∃ c, run keys (w, c0) = (w, c) ∧ quiet c) as Hrun.
  { induction Hkeys as [|key keys Hkey _ IH]; intros c0 Hq.
    - by exists c0.
    - destruct (step_quiet key w c0 Hq Hkey) as (c1 & E1 & Hq1).
      destruct (IH c1 Hq1) as (c & E & Hqc).
      exists c. by rewrite run_cons, E1. }
  destruct (Hrun (Running (start args)) I) as (c & E & Hq).
  split; [by exists c|].
  unfold program. destruct args as [|a args]; [done|]. rewrite E.
  destruct c as [s|p s e|s pattern|x]; simpl in *; try done. by subst pattern.
Qed.
End Quiet.

Lemma reordering_renames_nothing_witness :
  (∃ c, run [ord "j"; ord " "; ord "K"; 27; ord "q"]
          (Disk.world ["a"; "b"], Running (start ["a"; "b"]))
        = (Disk.world ["a"; "b"], c) ∧ quiet c)
  ∧ (program ["a"; "b"] [ord "j"; ord " "; ord "K"; 27; ord "q"]
       (Disk.world ["a"; "b"])).1
    = Disk.world ["a"; "b"].
Proof.
  apply (reordering_renames_nothing ["a"; "b"]
           [ord "j"; ord " "; ord "K"; 27; ord "q"] (Disk.world ["a"; "b"])).
  repeat constructor; unfold is_trigger; intros [H | [H | [H | H]]]; discriminate H.
Defined.

(** *** Editing a line *)


Lemma prompt_key_printable (key : Z) (e : EditBuffer) :
  32 <= key <= 126 →
  prompt_key key e
  = Editing (mkEdit (PyList.insert (buffer e) (cursor_pos e) (chr key))
               (cursor_pos e + 1)).
Proof.
  intros Hkey. unfold prompt_key, key_in, KEY_ENTER, KEY_BACKSPACE, KEY_LEFT,
    KEY_RIGHT. simpl existsb.
  repeat match goal with
         | |- context [key =? ?k] => destruct (Z.eqb_spec key k) as [->|_]; [lia|]
         end.
  simpl.
  destruct (Z.leb_spec 32 key); [|lia]. destruct (Z.leb_spec key 126); [|lia]. done.
Qed.

Lemma chr_ord (c : ascii) : chr (ord c) = c.
Proof. unfold chr, ord. by rewrite Nat2Z.id, ascii_nat_embedding. Qed.

Lemma take_inserted {A : Type} (l : list A) (k : nat) (x : A) :
  (k ≤ length l)%nat →
  take (S k) (take k l ++ x :: drop k l)%list = (take k l ++ [x])%list.
Proof.
  intros Hk. rewrite cons_middle, app_assoc.
  apply take_app_length'. rewrite length_app, length_take_le by done. simpl. lia.
Qed.

Lemma drop_inserted {A : Type} (l : list A) (k : nat) (x : A) :
  (k ≤ length l)%nat →
  drop (S k) (take k l ++ x :: drop k l)%list = drop k l.
Proof.
  intros Hk. rewrite cons_middle, app_assoc.
  apply drop_app_length'. rewrite length_app, length_take_le by done. simpl. lia.
Qed.

(** X12: a printable key inserts its character at the cursor and moves the
    cursor one step right; Backspace right after it gives back the buffer
    and the cursor as they were. *)
Theorem insert_then_backspace (key back : Z) (e : EditBuffer) :
  in_buffer e →
  32 <= key <= 126 →
  key_in back [KEY_BACKSPACE; 127; 8] = true →
  ∃ e1, prompt_key key e = Editing e1
    ∧ buffer e1 = (take (Z.to_nat (cursor_pos e)) (buffer e)
                   ++ chr key :: drop (Z.to_nat (cursor_pos e)) (buffer e))%list
    ∧ cursor_pos e1 = cursor_pos e + 1
    ∧ prompt_key back e1 = Editing e.
Proof.
  destruct e as [b p]. unfold in_buffer. intros Hp Hkey Hback. simpl in Hp.
  rewrite prompt_key_printable by done. simpl.
  rewrite insert_in_range by done. eexists. split; [reflexivity|]. simpl.
  split; [done|]. split; [done|].
  assert (Z.to_nat p ≤ length b)%nat as Hk by (unfold len in Hp; lia).
  assert (prompt_key back
            (mkEdit (take (Z.to_nat p) b ++ chr key :: drop (Z.to_nat p) b)%list (p + 1))
          = match PyList.pop (take (Z.to_nat p) b ++ chr key :: drop (Z.to_nat p) b)%list
                    (p + 1 - 1) with
            | Ok (_, b') => Editing (mkEdit b' (p + 1 - 1))
            | Raise x => Faulted x
            end) as ->.
  { apply key_in_cases in Hback.
    repeat (apply elem_of_cons in Hback as [-> | Hback];
            [unfold prompt_key; simpl;
             destruct (Z.ltb_spec 0 (p + 1)); [done | lia]|]).
    by apply elem_of_nil in Hback. }
  replace (p + 1 - 1) with p by lia.
  rewrite (pop_in_range _ _ (chr key)); [|lia|by apply lookup_inserted].
  by rewrite delete_inserted.
Qed.

Lemma insert_then_backspace_witness :
  ∃ e1, prompt_key (ord "x") (mkEdit (list_ascii_of_string "abc") 1) = Editing e1
    ∧ buffer e1 = (take (Z.to_nat 1) (list_ascii_of_string "abc")
                   ++ chr (ord "x") :: drop (Z.to_nat 1) (list_ascii_of_string "abc"))%list
    ∧ cursor_pos e1 = 1 + 1
    ∧ prompt_key 127 e1 = Editing (mkEdit (list_ascii_of_string "abc") 1).
Proof.
  apply (insert_then_backspace (ord "x") 127 (mkEdit (list_ascii_of_string "abc") 1)).
  - unfold in_buffer, len. simpl. lia.
  - cbv. split; discriminate.
  - reflexivity.
Defined.

(** Typing from any place of the buffer. *)
Lemma prompt_keys_text (t : list ascii) (e : EditBuffer) :
  in_buffer e →
  Forall printable t →
  prompt_keys (text_keys t) e
  = Editing (mkEdit (take (Z.to_nat (cursor_pos e)) (buffer e) ++ t
                     ++ drop (Z.to_nat (cursor_pos e)) (buffer e))%list
               (cursor_pos e + len t)).
Proof.
  intros He Ht. revert e He. induction Ht as [|c t Hc _ IH]; intros [b p] He.
  - simpl. unfold len. simpl. by rewrite take_drop, Z.add_0_r.
  - unfold in_buffer in He. simpl in He.
    assert (Z.to_nat p ≤ length b)%nat as Hk by (unfold len in He; lia).
    simpl text_keys. simpl prompt_keys.
    rewrite prompt_key_printable by apply Hc. simpl buffer. simpl cursor_pos.
    rewrite chr_ord, insert_in_range by done.
    rewrite IH.
    + simpl buffer. simpl cursor_pos.
      replace (Z.to_nat (p + 1)) with (S (Z.to_nat p)) by lia.
      rewrite take_inserted, drop_inserted by done.
      f_equal. f_equal.
      * by rewrite <- app_assoc.
      * unfold len. simpl length. lia.
    + unfold in_buffer. simpl. unfold len in *. rewrite length_inserted. lia.
Qed.

(** *** Confirming a line *)

Lemma lstrip_spec (l : list ascii) :
  ∃ ws, l = (ws ++ lstrip l)%list
    ∧ Forall (fun c => isspace c = true) ws
    ∧ ∀ c r, lstrip l = c :: r → isspace c = false.
Proof.
  induction l as [|a l (ws & E & Hws & Hhead)]; simpl.
  - exists []. split; [done|]. split; [constructor | done].
  - destruct (isspace a) eqn:Ha.
    + exists (a :: ws). split; [simpl; by rewrite <- E|]. split; [by constructor | done].
    + exists []. split; [done|]. split; [constructor|]. by intros c r [= <- _].
Qed.

Lemma strip_spec (l : list ascii) :
  ∃ ws1 ws2, l = (ws1 ++ strip l ++ ws2)%list
    ∧ Forall (fun c => isspace c = true) ws1
    ∧ Forall (fun c => isspace c = true) ws2
    ∧ (∀ c r, strip l = c :: r → isspace c = false)
    ∧ (∀ c r, strip l = (r ++ [c])%list → isspace c = false).
Proof.
  destruct (lstrip_spec l) as (ws1 & E1 & Hws1 & Hhead1).
  destruct (lstrip_spec (rev (lstrip l))) as (ws & E2 & Hws & Hhead2).
  unfold strip. set (m := lstrip l) in *. set (k := lstrip (rev m)) in *.
  assert (m = (rev k ++ rev ws)%list) as Em.
  { rewrite <- rev_app_distr, <- E2. by rewrite rev_involutive. }
  exists ws1, (rev ws). split; [by rewrite <- Em|]. split; [done|].
  split; [by apply Forall_rev|]. split.
  - intros c r Hk. apply (Hhead1 c (r ++ rev ws)%list). by rewrite Em, Hk.
  - intros c r Hk. apply (Hhead2 c (rev r)).
    rewrite <- (rev_involutive k), Hk, rev_app_distr. done.
Qed.

Lemma prompt_key_enter (key : Z) (e : EditBuffer) :
  key_in key [KEY_ENTER; 10; 13] = true →
  prompt_key key e
  = match strip (buffer e) with
    | [] => Returned None
    | value => Returned (Some (string_of_list_ascii value))
    end.
Proof.
  intros Hkey. apply key_in_cases in Hkey.
  repeat (apply elem_of_cons in Hkey as [-> | Hkey]; [reflexivity|]).
  by apply elem_of_nil in Hkey.
Qed.

(** X14: Enter returns the text of the buffer without the white space
    around it: the value is not empty, it neither starts nor ends with white
    space, and the buffer is the value between two runs of white space.
    When the buffer holds nothing but white space, Enter returns [None]. *)
Theorem confirm_returns_trimmed (key : Z) (e : EditBuffer) :
  key_in key [KEY_ENTER; 10; 13] = true →
  match prompt_key key e with
  | Returned (Some v) =>
      v ≠ ""
      ∧ ∃ ws1 ws2,
          buffer e = (ws1 ++ list_ascii_of_string v ++ ws2)%list
          ∧ Forall (fun c => isspace c = true) ws1
          ∧ Forall (fun c => isspace c = true) ws2
          ∧ (∀ c r, list_ascii_of_string v = c :: r → isspace c = false)
          ∧ (∀ c r, list_ascii_of_string v = (r ++ [c])%list → isspace c = false)
  | Returned None => Forall (fun c => isspace c = true) (buffer e)
  | Editing _ | Faulted _ => False
  end.
Proof.
  intros Hkey. rewrite (prompt_key_enter key e Hkey).
  destruct (strip_spec (buffer e)) as (ws1 & ws2 & E & H1 & H2 & Hh & Hl).
  destruct (strip (buffer e)) as [|a v] eqn:Es.
  - rewrite E. apply Forall_app. split; [done|]. by apply Forall_app.
  - split; [done|]. exists ws1, ws2.
    by rewrite list_ascii_of_string_of_list_ascii.
Qed.

Lemma confirm_returns_trimmed_witness :
  match prompt_key 10 (prompt_start "  a b ") with
  | Returned (Some v) =>
      v ≠ ""
      ∧ ∃ ws1 ws2,
          buffer (prompt_start "  a b ") = (ws1 ++ list_ascii_of_string v ++ ws2)%list
          ∧ Forall (fun c => isspace c = true) ws1
          ∧ Forall (fun c => isspace c = true) ws2
          ∧ (∀ c r, list_ascii_of_string v = c :: r → isspace c = false)
          ∧ (∀ c r, list_ascii_of_string v = (r ++ [c])%list → isspace c = false)
  | Returned None => Forall (fun c => isspace c = true) (buffer (prompt_start "  a b "))
  | Editing _ | Faulted _ => False
  end.
Proof.
  apply (confirm_returns_trimmed 10 (prompt_start "  a b ")). reflexivity.
Defined.

(** *** Typing text *)

Lemma typing_at_end (t : list ascii) (default_value : string) :
  Forall printable t →
  prompt_keys (text_keys t) (prompt_start default_value)
  = Editing (mkEdit (list_ascii_of_string default_value ++ t)%list
               (len (list_ascii_of_string default_value) + len t)).
Proof.
  intros Ht. rewrite prompt_keys_text by (done || apply prompt_start_in_buffer).
  unfold prompt_start, len. simpl. rewrite Nat2Z.id.
  by rewrite take_ge, drop_ge, app_nil_r by lia.
Qed.



(** *** Renaming one item *)

Section SingleRename.
Context {FS : Type} `{!FileSystem FS} `{!Regex}.

Lemma run_prompt_keys keys p s e e' (w : World FS) :
  prompt_keys keys e = Editing e' →
  run keys (w, PromptActive p s e) = (w, PromptActive p s e').
Proof.
  revert e. induction keys as [|key keys IH]; intros e; simpl prompt_keys.
  - by intros [= ->].
  - intros Hk. rewrite run_cons. unfold step.
    destruct (prompt_key key e) as [e1| |]; try discriminate. by apply IH.
Qed.

(** X10: with the cursor on an item, the key [r], some printable characters
    and Enter rename the item to its old name followed by the characters
    (when that text has no white space around it).  If the filesystem
    accepts the rename, the row of the cursor holds the new name and the
    message says so; if it refuses, the list is as it was and the message
    carries the reason.  Either way the session goes on. *)
Theorem rename_by_typing (w : World FS) (s : State) (t : list ascii) (old : string) :
  valid s →
  files s !! Z.to_nat (current_idx s) = Some old →
  Forall printable t → t ≠ [] →
  strip (list_ascii_of_string old ++ t) = (list_ascii_of_string old ++ t)%list →
  let new := string_of_list_ascii (list_ascii_of_string old ++ t) in
  let keys := (ord "r" :: text_keys t ++ [10])%list in
  (∀ d, os_rename old new (fs w) = Ok d →
     run keys (w, Running s)
     = (mkWorld d (renamed w ++ [(old, new)]),
        Running (mkState (<[Z.to_nat (current_idx s):=new]> (files s))
                   (current_idx s) (first_selection s)
                   ("Renamed '" ++ old ++ "' to '" ++ new ++ "'"))))
  ∧ (∀ x, os_rename old new (fs w) = Raise x →
     run keys (w, Running s)
     = (w, Running (mkState (files s) (current_idx s) (first_selection s)
                      ("Error: " ++ exn_str x)))).
Proof.
  intros Hv Hold Ht Hne Hstrip new keys.
  assert (run keys (w, Running s)
          = resume (RenameItem old) (Some new) (set_message "" s) w) as Hrun.
  { unfold keys. rewrite run_cons.
    assert (step (ord "r") (w, Running s)
            = (w, PromptActive (RenameItem old) (set_message "" s) (prompt_start old)))
      as ->.
    { simpl. unfold main_key. simpl.
      rewrite (getitem_in_range _ _ old); [done | apply Hv | done]. }
    rewrite run_app, (run_prompt_keys _ _ _ _ _ _ (typing_at_end t old Ht)).
    rewrite run_cons. unfold step. rewrite confirm_unchanged; [done | done |].
    destruct t; [done | by destruct (list_ascii_of_string old)]. }
  assert (String.eqb new old = false) as Hdiff.
  { apply String.eqb_neq. intros E. apply Hne.
    apply (f_equal list_ascii_of_string) in E. unfold new in E.
    rewrite list_ascii_of_string_of_list_ascii in E.
    rewrite <- (app_nil_r (list_ascii_of_string old)) in E at 2.
    by apply app_inv_head in E. }
  rewrite Hrun. unfold resume, rename. rewrite Hdiff. split.
  - intros d ->. simpl. by rewrite setitem_in_range by apply Hv.
  - by intros x ->.
Qed.
End SingleRename.

Lemma rename_by_typing_witness :
  run (ord "r" :: text_keys (list_ascii_of_string ".bak") ++ [10])%list
    (Disk.world ["a"; "b"], Running (mkState ["a"; "b"] 1 None ""))
  = (mkWorld ["b.bak"; "a"] [("b", "b.bak")],
     Running (mkState ["a"; "b.bak"] 1 None "Renamed 'b' to 'b.bak'")).
Proof.
  destruct (rename_by_typing (Disk.world ["a"; "b"]) (mkState ["a"; "b"] 1 None "")
              (list_ascii_of_string ".bak") "b") as [Hok _].
  - unfold valid, len. simpl. lia.
  - reflexivity.
  - repeat constructor; cbv; discriminate.
  - discriminate.
  - reflexivity.
  - apply (Hok ["b.bak"; "a"]). reflexivity.
Defined.


(** *** The strip prompt without a pattern *)

Section StripCancelled.
Context {FS : Type} `{!FileSystem FS} `{!Regex}.

(** X8: when the strip prompt gives no pattern (Escape, Ctrl-C, Ctrl-G, or
    Enter on a blank line) and the list is not empty, [re.sub] is called
    with [None] for the first item: a [TypeError] leaves [main], and nothing
    was renamed. *)
Theorem strip_without_pattern_raises (w : World FS) (s : State)
    (e : EditBuffer) (key : Z) :
  files s ≠ [] →
  prompt_key key e = Returned None →
  step key (w, PromptActive StripPattern s e) = (w, Crashed TypeError).
Proof.
  intros Hne Hret. unfold step. rewrite Hret. unfold resume.
  destruct (files s) as [|f fl]; [done|]. reflexivity.
Qed.
End StripCancelled.

Lemma strip_without_pattern_raises_witness :
  step 27 (Disk.world ["a"], PromptActive StripPattern (start ["a"]) (prompt_start "^"))
  = (Disk.world ["a"], Crashed TypeError).
Proof.
  apply (strip_without_pattern_raises (Disk.world ["a"]) (start ["a"])
           (prompt_start "^") 27).
  - discriminate.
  - reflexivity.
Defined.

(** *** The numbers of the final enumeration *)

Lemma string_length_app (s1 s2 : string) :
  String.length (s1 ++ s2) = (String.length s1 + String.length s2)%nat.
Proof. induction s1 as [|c s1 IH]; simpl; [done | by rewrite IH]. Qed.

Lemma string_length_of_list (l : list ascii) :
  String.length (string_of_list_ascii l) = length l.
Proof. induction l as [|c l IH]; simpl; [done | by rewrite IH]. Qed.

Lemma pad_length (c : ascii) (width : nat) (s : string) :
  String.length (pad c width s) = max width (String.length s).
Proof.
  unfold pad. rewrite string_length_app, string_length_of_list, length_replicate. lia.
Qed.

Lemma digits_length (d : Decimal.uint) :
  String.length (NilEmpty.string_of_uint d) = Decimal.nb_digits d.
Proof. induction d; simpl; congruence. Qed.

Lemma of_uint_acc_split (d : Decimal.uint) :
  ∀ acc, (Nat.of_uint_acc d acc
          = acc * 10 ^ Decimal.nb_digits d + Nat.of_uint_acc d 0
          ∧ Nat.of_uint_acc d 0 < 10 ^ Decimal.nb_digits d)%nat.
Proof.
  induction d as [|d IH|d IH|d IH|d IH|d IH|d IH|d IH|d IH|d IH|d IH]; intros acc;
    [simpl; lia|..];
    cbn [Nat.of_uint_acc Decimal.nb_digits];
    rewrite !Nat.tail_mul_spec;
    [destruct (IH (10 * acc)%nat) as [E1 B]; destruct (IH (10 * 0)%nat) as [E0 _]
    |destruct (IH (S (10 * acc))) as [E1 B]; destruct (IH (S (10 * 0))) as [E0 _]
    |destruct (IH (S (S (10 * acc)))) as [E1 B];
     destruct (IH (S (S (10 * 0)))) as [E0 _]
    |destruct (IH (S (S (S (10 * acc))))) as [E1 B];
     destruct (IH (S (S (S (10 * 0))))) as [E0 _]
    |destruct (IH (S (S (S (S (10 * acc)))))) as [E1 B];
     destruct (IH (S (S (S (S (10 * 0)))))) as [E0 _]
    |destruct (IH (S (S (S (S (S (10 * acc))))))) as [E1 B];
     destruct (IH (S (S (S (S (S (10 * 0))))))) as [E0 _]
    |destruct (IH (S (S (S (S (S (S (10 * acc)))))))) as [E1 B];
     destruct (IH (S (S (S (S (S (S (10 * 0)))))))) as [E0 _]
    |destruct (IH (S (S (S (S (S (S (S (10 * acc))))))))) as [E1 B];
     destruct (IH (S (S (S (S (S (S (S (10 * 0))))))))) as [E0 _]
    |destruct (IH (S (S (S (S (S (S (S (S (10 * acc)))))))))) as [E1 B];
     destruct (IH (S (S (S (S (S (S (S (S (10 * 0)))))))))) as [E0 _]
    |destruct (IH (S (S (S (S (S (S (S (S (S (10 * acc))))))))))) as [E1 B];
     destruct (IH (S (S (S (S (S (S (S (S (S (10 * 0))))))))))) as [E0 _]];
    rewrite E1, E0, Nat.pow_succ_r'; split; nia.
Qed.

Lemma nzhead_no_zero_head (u v : Decimal.uint) : Decimal.nzhead u ≠ Decimal.D0 v.
Proof. induction u; simpl; done. Qed.

(** The decimal digits of a positive number do not start with a zero. *)
Lemma to_uint_no_zero_head (n : nat) (d : Decimal.uint) :
  (1 ≤ n)%nat → Nat.to_uint n ≠ Decimal.D0 d.
Proof.
  intros Hn E. pose proof (Unsigned.to_of (Nat.to_uint n)) as Hnorm.
  rewrite Unsigned.of_to, E, DecimalFacts.unorm_D0 in Hnorm.
  unfold Decimal.unorm in Hnorm.
  destruct (Decimal.nzhead d) eqn:Hd;
    try (symmetry in Hnorm; rewrite <- Hd in Hnorm;
         by apply nzhead_no_zero_head in Hnorm).
  injection Hnorm as ->.
  pose proof (Unsigned.of_to n) as Hof. rewrite E in Hof. cbv in Hof. lia.
Qed.

(** [str n] has as many characters as [n] has decimal digits. *)
Lemma str_length_bounds (n : nat) :
  (1 ≤ n)%nat →
  (10 ^ (String.length (str n) - 1) ≤ n < 10 ^ String.length (str n))%nat.
Proof.
  intros Hn. rewrite str_digits, digits_length.
  pose proof (Unsigned.of_to n) as Hof. unfold Nat.of_uint in Hof.
  pose proof (to_uint_no_zero_head n) as Hhead.
  destruct (Nat.to_uint n) as [|d|d|d|d|d|d|d|d|d|d] eqn:E;
    [simpl in Hof; lia | by destruct (Hhead d Hn) |..];
    cbn [Nat.of_uint_acc Decimal.nb_digits] in *;
    rewrite Nat.tail_mul_spec in Hof;
    match type of Hof with
    | Nat.of_uint_acc d ?a = n => destruct (of_uint_acc_split d a) as [E1 _]
    end;
    destruct (of_uint_acc_split d 0) as [_ B];
    rewrite E1 in Hof; rewrite Nat.sub_succ, Nat.sub_0_r, Nat.pow_succ_r';
    split; nia.
Qed.

(** X20: for two items or more, the width of the default pattern is the
    number of decimal digits of the item count minus one. *)
Theorem default_width_is_digits_of_predecessor (n : nat) :
  (2 ≤ n)%nat → ceil_log10 n = String.length (str (n - 1)).
Proof.
  intros Hn. destruct (str_length_bounds (n - 1)) as [Hlow Hhigh]; [lia|].
  destruct (String.length (str (n - 1))) as [|k] eqn:E.
  - simpl in Hhigh. lia.
  - apply ceil_log10_between. rewrite Nat.sub_succ, Nat.sub_0_r in Hlow. lia.
Qed.

Lemma default_width_is_digits_of_predecessor_witness :
  ceil_log10 100 = String.length (str (100 - 1)).
Proof. apply (default_width_is_digits_of_predecessor 100). lia. Defined.

(** X19: with the default pattern for [n] items, the number of item [i] is
    [W = ceil_log10 n] characters wide for every [i] from 1 to [n], except
    that the last one is [W + 1] wide when [n] is exactly [10 ^ W]. *)
Theorem default_field_widths (n i : nat) :
  (1 ≤ i ≤ n)%nat →
  ∃ field, format (prefix_pattern (ceil_log10 n)) i = Ok field
    ∧ String.length field
      = if (i =? 10 ^ ceil_log10 n)%nat then S (ceil_log10 n) else ceil_log10 n.
Proof.
  intros Hi. rewrite format_prefix_pattern. eexists. split; [reflexivity|].
  rewrite pad_length.
  destruct (ceil_log10_least n) as [Hle _].
  destruct (str_length_bounds i) as [Hlow Hhigh]; [lia|].
  set (W := ceil_log10 n) in *. set (L := String.length (str i)) in *.
  assert (1 ≤ L)%nat as HL.
  { destruct L; [simpl in Hhigh; lia | lia]. }
  destruct (Nat.eqb_spec i (10 ^ W)) as [E|E].
  - assert (W < L)%nat.
    { destruct (Nat.le_gt_cases L W) as [H|H]; [|done].
      pose proof (Nat.pow_le_mono_r 10 L W). lia. }
    assert (L - 1 ≤ W)%nat.
    { destruct (Nat.le_gt_cases (L - 1) W) as [H'|H']; [done|].
      pose proof (Nat.pow_lt_mono_r 10 W (L - 1)). lia. }
    lia.
  - assert (L ≤ W)%nat.
    { destruct (Nat.le_gt_cases L W) as [H|H]; [done|].
      pose proof (Nat.pow_le_mono_r 10 W (L - 1)). lia. }
    lia.
Qed.

Lemma default_field_widths_witness :
  ∃ field, format (prefix_pattern (ceil_log10 10)) 10 = Ok field
    ∧ String.length field
      = if (10 =? 10 ^ ceil_log10 10)%nat then S (ceil_log10 10) else ceil_log10 10.
Proof. apply (default_field_widths 10 10). lia. Defined.

(** *** The final enumeration when something fails *)

Lemma format_percent_free (pattern : string) (n : nat) :
  percent_free pattern → format pattern n = Raise TypeError.
Proof.
  unfold percent_free. induction pattern as [|c pattern IH]; intros Hfree; [done|].
  assert (format pattern n = Raise TypeError) as E.
  { apply IH. intros Hin. apply Hfree. simpl. by right. }
  destruct c as [[] [] [] [] [] [] [] []];
    try (simpl; rewrite E; reflexivity).
  exfalso. apply Hfree. simpl. by left.
Qed.

Section EnumerateFails.
Context {FS : Type} `{!FileSystem FS} `{!Regex}.

Lemma enumerate_rename_stops (width i : nat) (fl1 fl2 : list string) (f : string)
    (w : World FS) (d : FS) (x : exn) :
  let pairs :=
    imap (fun j f => (f, pad "0" width (str (S (i + j))) ++ " " ++ f)) fl1 in
  rename_all pairs (fs w) = Ok d →
  os_rename f (pad "0" width (str (S (i + length fl1))) ++ " " ++ f) d = Raise x →
  enumerate_rename (prefix_pattern width) i (fl1 ++ f :: fl2) w
  = (mkWorld d (renamed w ++ pairs), Raise x).
Proof.
  revert i w. induction fl1 as [|g fl1 IH]; intros i w pairs Hren Hfail; subst pairs.
  - simpl in Hren. injection Hren as <-. simpl app. cbn [enumerate_rename].
    rewrite format_prefix_pattern. unfold rename.
    change (length (@nil string)) with 0%nat in Hfail.
    rewrite Nat.add_0_r in Hfail. rewrite Hfail.
    destruct w. simpl. by rewrite app_nil_r.
  - simpl app. cbn [enumerate_rename]. rewrite format_prefix_pattern.
    cbn [imap rename_all] in *. rewrite Nat.add_0_r in *. unfold rename.
    destruct (os_rename g _ (fs w)) as [d1|y]; [|done].
    change (rename_all (imap ((fun j f => (f, pad "0" width (str (S (i + j))) ++ " " ++ f)) ∘ S) fl1) d1 = Ok d) in Hren.
    rewrite (imap_ext _ (fun j f => (f, pad "0" width (str (S (S i + j))) ++ " " ++ f)))
      in Hren |- *
      by (intros j y _; simpl; by rewrite Nat.add_succ_r).
    change (length (g :: fl1)) with (S (length fl1)) in Hfail.
    rewrite Nat.add_succ_r in Hfail.
    rewrite (IH (S i) (mkWorld d1 (renamed w ++ [(g, pad "0" width (str (S i)) ++ " " ++ g)])) Hren Hfail).
    simpl. by rewrite <- app_assoc.
Qed.

(** X15: the final enumeration is not undone when a rename fails: the items
    before the one that fails keep their new names, the items after it keep
    their old names, and the program ends with the error. *)
Theorem final_enumerate_stops_at_failure (w0 w : World FS) (args : list string)
    (keys : list Z) (s : State) (fl1 fl2 : list string) (f : string)
    (d : FS) (x : exn) :
  let W := ceil_log10 (length args) in
  args ≠ [] →
  run keys (w0, Running (start args)) = (w, Running s) →
  files s = (fl1 ++ f :: fl2)%list →
  rename_all (numbered W fl1) (fs w) = Ok d →
  os_rename f (pad "0" W (str (S (length fl1))) ++ " " ++ f) d = Raise x →
  program args (keys ++ [ord "x"; 10]) w0
  = (mkWorld d (renamed w ++ numbered W fl1), Traceback x).
Proof.
  intros W Hargs Hrun Hfiles Hren Hfail.
  assert (length (files s) = length args) as HN.
  { apply (run_item_count keys w0 (Running (start args))); [done|].
    by rewrite Hrun. }
  unfold program. destruct args as [|a args]; [done|].
  rewrite run_app, Hrun, run_default_pattern by (rewrite HN; simpl; lia).
  change (files (set_message "" s)) with (files s). rewrite HN, Hfiles.
  subst W. by rewrite (enumerate_rename_stops _ 0 fl1 fl2 f w d x).
Qed.

(** X16: a pattern without any [%] cannot format the number of the first
    item: when the operator confirms such a pattern, the program ends with
    a [TypeError] before it renames anything. *)
Theorem pattern_without_percent_renames_nothing (w0 w : World FS)
    (args : list string) (keys : list Z) (s : State) (pattern : string) :
  args ≠ [] →
  percent_free pattern →
  run keys (w0, Running (start args)) = (w, Exiting s (Some pattern)) →
  program args keys w0 = (w, Traceback TypeError).
Proof.
  intros Hargs Hfree Hrun.
  assert (length (files s) = length args) as HN.
  { apply (run_item_count keys w0 (Running (start args))); [done|].
    by rewrite Hrun. }
  unfold program. destruct args as [|a args]; [done|]. rewrite Hrun.
  destruct (files s) as [|f fl]; [done|]. simpl.
  by rewrite format_percent_free.
Qed.
End EnumerateFails.

Lemma final_enumerate_stops_at_failure_witness :
  program ["a"; "b"; "c"] ([] ++ [ord "x"; 10]) (Disk.world ["a"; "c"])
  = (mkWorld ["1 a"; "c"] ([] ++ numbered (ceil_log10 3) ["a"]),
     Traceback (OSError "[Errno 2] No such file or directory: 'b' -> '2 b'")).
Proof.
  apply (final_enumerate_stops_at_failure (Disk.world ["a"; "c"]) (Disk.world ["a"; "c"])
           ["a"; "b"; "c"] [] (start ["a"; "b"; "c"]) ["a"] ["c"] "b").
  - discriminate.
  - reflexivity.
  - reflexivity.
  - reflexivity.
  - reflexivity.
Defined.

Lemma pattern_without_percent_renames_nothing_witness :
  program ["a"; "b"]
    [ord "x"; KEY_BACKSPACE; KEY_BACKSPACE; KEY_BACKSPACE; KEY_BACKSPACE; ord "n"; 10]
    (Disk.world ["a"; "b"])
  = (Disk.world ["a"; "b"], Traceback TypeError).
Proof.
  apply (pattern_without_percent_renames_nothing (Disk.world ["a"; "b"])
           (Disk.world ["a"; "b"]) ["a"; "b"] _ (start ["a"; "b"]) "n").
  - discriminate.
  - unfold percent_free. simpl. intros H.
    apply elem_of_cons in H as [H|H]; [discriminate H | by apply elem_of_nil in H].
  - reflexivity.
Defined.

(** *** Where a session can raise *)




Section Sound.
Context {FS : Type} `{!FileSystem FS} `{!Regex}.


End Sound.


(** *** The rename prompt left alone *)

Section RenameLeftAlone.
Context {FS : Type} `{!FileSystem FS} `{!Regex}.

(** X22: with the cursor on an item, [r] followed by a key that cancels, or
    by Enter when the name has no white space around it, renames nothing:
    the filesystem, the list, the cursor and the anchor are as before. *)
Theorem rename_prompt_left_alone (w : World FS) (s : State) (old : string) (key : Z) :
  valid s →
  files s !! Z.to_nat (current_idx s) = Some old →
  key_in key [27; 3; 7] = true
  ∨ (key_in key [KEY_ENTER; 10; 13] = true
     ∧ strip (list_ascii_of_string old) = list_ascii_of_string old) →
  run [ord "r"; key] (w, Running s)
  = (w, Running (mkState (files s) (current_idx s) (first_selection s) "")).
Proof.
  intros Hv Hold Hkey. rewrite run_cons.
  assert (step (ord "r") (w, Running s)
          = (w, PromptActive (RenameItem old) (set_message "" s) (prompt_start old)))
    as ->.
  { simpl. unfold main_key. simpl.
    rewrite (getitem_in_range _ _ old); [done | apply Hv | done]. }
  rewrite run_cons. unfold step.
  destruct Hkey as [Hesc | [Henter Hclean]].
  - assert (prompt_key key (prompt_start old) = Returned None) as ->; [|done].
    apply key_in_cases in Hesc.
    repeat (apply elem_of_cons in Hesc as [-> | Hesc]; [reflexivity|]).
    by apply elem_of_nil in Hesc.
  - rewrite (prompt_key_enter key _ Henter). unfold prompt_start. simpl buffer.
    rewrite Hclean. destruct (list_ascii_of_string old) as [|a l] eqn:E; [done|].
    rewrite <- E, string_of_list_ascii_of_string. unfold resume.
    by rewrite String.eqb_refl.
Qed.
End RenameLeftAlone.

Lemma rename_prompt_left_alone_witness :
  run [ord "r"; 10] (Disk.world ["a"; "b"], Running (mkState ["a"; "b"] 1 (Some 0) "m"))
  = (Disk.world ["a"; "b"], Running (mkState ["a"; "b"] 1 (Some 0) "")).
Proof.
  apply (rename_prompt_left_alone (Disk.world ["a"; "b"])
           (mkState ["a"; "b"] 1 (Some 0) "m") "b" 10).
  - unfold valid, len. simpl. lia.
  - reflexivity.
  - right. split; reflexivity.
Defined.

(** *** Typing after jump-to-end *)

(** X23: jump-to-end puts the cursor before the last character, so the
    characters typed next go in front of it; on an empty buffer it puts the
    cursor at [-1], the first character typed lands at the start and the
    following ones go in front of it. *)
Theorem typing_after_jump_to_end (front t : list ascii) (z c : ascii) (p : Z) :
  Forall printable (c :: t) →
  prompt_keys (5 :: text_keys (c :: t)) (mkEdit (front ++ [z]) p)
  = Editing (mkEdit (front ++ c :: t ++ [z])%list (len front + len (c :: t)))
  ∧ prompt_keys (5 :: text_keys (c :: t)) (mkEdit [] p)
    = Editing (mkEdit (t ++ [c])%list (len t)).
Proof.
  intros Ht. split.
  - cbn [prompt_keys]. change (prompt_key 5 (mkEdit (front ++ [z]) p))
      with (Editing (mkEdit (front ++ [z])%list (len (front ++ [z])%list - 1))).
    cbv iota. rewrite prompt_keys_text; [|unfold in_buffer, len; simpl;
      rewrite length_app; simpl; lia | done].
    simpl buffer. simpl cursor_pos.
    replace (Z.to_nat (len (front ++ [z])%list - 1)) with (length front)
      by (unfold len; rewrite length_app; simpl; lia).
    rewrite take_app_length, drop_app_length. f_equal. f_equal.
    unfold len. rewrite length_app. simpl. lia.
  - inversion Ht as [|? ? Hc Ht']; subst.
    cbn [prompt_keys text_keys map].
    change (prompt_key 5 (mkEdit [] p)) with (Editing (mkEdit [] (-1))). cbv iota.
    rewrite prompt_key_printable by apply Hc. rewrite chr_ord. cbv iota.
    change (PyList.insert (buffer (mkEdit [] (-1))) (cursor_pos (mkEdit [] (-1))) c)
      with [c].
    change (cursor_pos (mkEdit [] (-1)) + 1) with 0.
    fold (text_keys t). rewrite prompt_keys_text;
      [done | unfold in_buffer, len; simpl; lia | done].
Qed.

Lemma typing_after_jump_to_end_witness :
  prompt_keys (5 :: text_keys (list_ascii_of_string "xy"))
    (mkEdit (list_ascii_of_string "ab" ++ ["c"%char]) 0)
  = Editing (mkEdit (list_ascii_of_string "ab" ++ "x"%char :: ["y"%char] ++ ["c"%char])%list
               (len (list_ascii_of_string "ab") + len (list_ascii_of_string "xy")))
  ∧ prompt_keys (5 :: text_keys (list_ascii_of_string "xy")) (mkEdit [] 0)
    = Editing (mkEdit (["y"%char] ++ ["x"%char])%list (len ["y"%char])).
Proof.
  apply (typing_after_jump_to_end (list_ascii_of_string "ab") ["y"%char]
           "c"%char "x"%char 0).
  repeat constructor; cbv; discriminate.
Defined.

(** *** Text around the number *)

Lemma literal_percent_free (post : string) :
  percent_free post → literal post = Ok post.
Proof.
  unfold percent_free. induction post as [|c post IH]; intros Hfree; [done|].
  assert (literal post = Ok post) as E.
  { apply IH. intros Hin. apply Hfree. simpl. by right. }
  destruct c as [[] [] [] [] [] [] [] []];
    try (simpl; rewrite E; reflexivity).
  exfalso. apply Hfree. simpl. by left.
Qed.

Lemma string_app_assoc (s1 s2 s3 : string) : (s1 ++ s2) ++ s3 = s1 ++ s2 ++ s3.
Proof. induction s1 as [|c s1 IH]; simpl; [done | by rewrite IH]. Qed.

(** X9: text without [%] that the operator adds before and after the
    default pattern is kept around the padded number. *)
Theorem format_with_text_around (pre post : string) (width n : nat) :
  percent_free pre → percent_free post →
  format (pre ++ prefix_pattern width ++ post) n
  = Ok (pre ++ pad "0" width (str n) ++ post).
Proof.
  intros Hpre Hpost. unfold percent_free in Hpre.
  induction pre as [|c pre IH].
  - simpl. unfold prefix_pattern. simpl. unfold convert.
    change (skip_zero_flags (String "0" ((str width ++ "d") ++ post)))
      with (skip_zero_flags ((str width ++ "d") ++ post)).
    rewrite string_app_assoc. simpl.
    rewrite read_width_skip_zero_flags, read_width_str. simpl.
    by rewrite literal_percent_free.
  - assert (format (pre ++ prefix_pattern width ++ post) n
            = Ok (pre ++ pad "0" width (str n) ++ post)) as E.
    { apply IH. intros Hin. apply Hpre. simpl. by right. }
    destruct c as [[] [] [] [] [] [] [] []];
      try (simpl; simpl in E; rewrite E; reflexivity).
    exfalso. apply Hpre. simpl. by left.
Qed.

Lemma format_with_text_around_witness :
  format ("track " ++ prefix_pattern 2 ++ " -") 7 = Ok ("track " ++ pad "0" 2 (str 7) ++ " -").
Proof.
  apply (format_with_text_around "track " " -" 2 7);
    unfold percent_free; simpl; intros H;
    repeat (apply elem_of_cons in H as [H|H]; [discriminate H|]);
    by apply elem_of_nil in H.
Defined.

(** *** Delete-forward, by the text around the cursor *)

(** X11: with the cursor between [front] and [x :: back], delete-forward
    removes [x] and leaves the cursor where it is; with the cursor after the
    last character of a non-empty buffer it raises [IndexError]; on an empty
    buffer it does nothing. *)
Theorem delete_forward_by_context (front back : list ascii) (x : ascii) :
  prompt_key 4 (mkEdit (front ++ x :: back) (len front))
  = Editing (mkEdit (front ++ back)%list (len front))
  ∧ prompt_key 4 (mkEdit (front ++ [x]) (len (front ++ [x])%list)) = Faulted IndexError
  ∧ prompt_key 4 (mkEdit [] 0) = Editing (mkEdit [] 0).
Proof.
  split; [|split; [|reflexivity]].
  - destruct (delete_forward_cases (mkEdit (front ++ x :: back)%list (len front)))
      as [Hin _].
    { unfold in_buffer, len. simpl. rewrite length_app. lia. }
    rewrite Hin by (unfold len; simpl; rewrite length_app; simpl; lia).
    simpl. unfold len. rewrite Nat2Z.id.
    by rewrite delete_middle.
  - destruct (delete_forward_cases (mkEdit (front ++ [x])%list (len (front ++ [x])%list)))
      as (_ & _ & Hend).
    { unfold in_buffer, len. simpl. lia. }
    apply Hend; [|done]. simpl. by destruct front.
Qed.

(** *** The anchor under a swap move *)

Lemma swap_move_result (key : Z) (s : State) :
  valid s → is_swap_key key →
  ∃ x y,
    let c := current_idx s in
    let c' := (current_idx s + direction key) `mod` len (files s) in
    files s !! Z.to_nat c = Some x
    ∧ files s !! Z.to_nat c' = Some y
    ∧ main_key key s
      = Running (mkState (<[Z.to_nat c':=x]> (<[Z.to_nat c:=y]> (files s))) c'
                   match first_selection s with
                   | Some a =>
                       if c' =? a
                       then Some (if key =? ord "K"
                                  then Z.min (a + 1) (len (files s) - 1)
                                  else Z.max (a - 1) 0)
                       else Some a
                   | None => None
                   end "").
Proof.
  intros Hv Hkey.
  assert (valid (set_message "" s)) as Hv0 by done.
  destruct (moved_valid (direction key) _ Hv0) as [Hm Hr].
  change (files (set_message "" s)) with (files s) in *.
  change (current_idx (set_message "" s)) with (current_idx s) in *.
  destruct (lookup_in_range (files s) (current_idx s) Hv) as [x Hx].
  rewrite Hm in Hr.
  destruct (lookup_in_range (files s) _ Hr) as [y Hy].
  exists x, y. split; [done|]. split; [done|].
  unfold valid in Hv.
  destruct Hkey as [-> | ->].
  - change (direction (ord "K")) with (-1) in *.
    change (main_key (ord "K") s)
      with (swap_move (-1) (fun a n => Z.min (a + 1) (n - 1)) (set_message "" s)).
    unfold swap_move. rewrite Hm.
    change (files (set_message "" s)) with (files s).
    change (current_idx (set_message "" s)) with (current_idx s).
    change (first_selection (set_message "" s)) with (first_selection s).
    rewrite (swap_items_in_range _ _ _ x y) by (done || lia).
    unfold len. rewrite !length_insert. done.
  - change (direction (ord "J")) with 1 in *.
    change (main_key (ord "J") s)
      with (swap_move 1 (fun a n => Z.max (a - 1) 0) (set_message "" s)).
    unfold swap_move. rewrite Hm.
    change (files (set_message "" s)) with (files s).
    change (current_idx (set_message "" s)) with (current_idx s).
    change (first_selection (set_message "" s)) with (first_selection s).
    by rewrite (swap_items_in_range _ _ _ x y) by (done || lia).
Qed.

(** X18: after a swap move the anchor still denotes the item it denoted
    before, provided the anchor is not on the row of the cursor (the item
    that moves) and, when the move wraps around the end of the list, not on
    the row the cursor lands on either. *)
Theorem anchor_keeps_its_item (key : Z) (s : State) (a : Z) :
  valid s → is_swap_key key →
  first_selection s = Some a →
  0 <= a < len (files s) →
  a ≠ current_idx s →
  (0 <= current_idx s + direction key < len (files s)
   ∨ a ≠ (current_idx s + direction key) `mod` len (files s)) →
  ∃ s' a', main_key key s = Running s'
    ∧ first_selection s' = Some a'
    ∧ files s' !! Z.to_nat a' = files s !! Z.to_nat a.
Proof.
  intros Hv Hkey Ha Hr Hne Hcase.
  destruct (swap_move_result key s Hv Hkey) as (x & y & Hx & Hy & ->).
  rewrite Ha. unfold valid in Hv.
  pose proof (lookup_lt_Some _ _ _ Hx) as Hlx.
  pose proof (lookup_lt_Some _ _ _ Hy) as Hly.
  set (c' := (current_idx s + direction key) `mod` len (files s)) in *.
  assert (0 <= c' < len (files s)) as Hc' by (apply Z.mod_pos_bound; lia).
  destruct (Z.eqb_spec c' a) as [E|E].
  - destruct Hcase as [Hnowrap | Hother]; [|done].
    assert (c' = current_idx s + direction key) as Ec'
      by (unfold c'; by apply Z.mod_small).
    eexists _, _. split; [reflexivity|]. split; [reflexivity|]. simpl.
    assert ((if key =? ord "K" then Z.min (a + 1) (len (files s) - 1)
             else Z.max (a - 1) 0) = current_idx s) as ->.
    { destruct Hkey as [-> | ->]; simpl.
      - change (direction (ord "K")) with (-1) in *. lia.
      - change (direction (ord "J")) with 1 in *. lia. }
    rewrite list_lookup_insert_ne by lia.
    rewrite list_lookup_insert_eq by lia. by rewrite <- E.
  - eexists _, _. split; [reflexivity|]. split; [reflexivity|]. simpl.
    by rewrite !list_lookup_insert_ne by lia.
Qed.

Lemma anchor_keeps_its_item_witness :
  ∃ s' a', main_key (ord "K") (mkState ["a"; "b"; "c"] 2 (Some 1) "") = Running s'
    ∧ first_selection s' = Some a'
    ∧ files s' !! Z.to_nat a' = ["a"; "b"; "c"] !! Z.to_nat 1.
Proof.
  apply (anchor_keeps_its_item (ord "K") (mkState ["a"; "b"; "c"] 2 (Some 1) "") 1).
  - unfold valid, len. simpl. lia.
  - by left.
  - reflexivity.
  - unfold len. simpl. lia.
  - simpl. discriminate.
  - left. unfold len, direction. simpl. lia.
Defined.
